(** * The scheduling and entitlement core of the tutoring back office

  A shallow embedding of [hub/models.py] (subscriptions, purchased classes
  and their timeline entries) together with the two collaborators that the
  repository only documents through unit tests: the external-calendar
  safety check ([extevents]) and the free-slot finder ([teachers]). *)

From Stdlib Require Import List ZArith Bool Lia Arith PeanoNat Sorted Permutation.
From Stdlib Require String.
Import ListNotations.

(** ** Sync safety circuit-breaker *)

Module ExtEvents.

(** An external event; [parent] links an instance of a recurring series to
    the event that carries the recurrence rule. *)
Record ExternalEvent := mkExternalEvent {
  ext_teacher : nat;
  ext_src : nat;
  parent : option nat
}.

Definition has_no_parent (ev : ExternalEvent) : bool :=
  match parent ev with
  | None => true
  | Some _ => false
  end.

Definition non_recurring (events : list ExternalEvent) : nat :=
  length (filter has_no_parent events).

(** Modelled from the spec: [ExternalEventSource.__is_safe] lives in
    [extevents/models.py], which is missing here; only its unit tests
    ([extevents/tests/unit/tests_safety.py]) are present.  The three
    branches follow the policy of section 4.6 in the order it gives them. *)
Definition is_safe (old_events new_events : list ExternalEvent) : bool :=
  if length old_events <=? length new_events then true
  else if (length new_events =? 0) && (0 <? length old_events) then false
  else non_recurring old_events <=? length new_events * 2.

(** The fixtures of [TestEventSourceSafety]. *)
Definition plain_event : ExternalEvent := mkExternalEvent 1 1 None.
Definition child_event (p : nat) : ExternalEvent := mkExternalEvent 1 1 (Some p).

End ExtEvents.

(** ** Timeline entries *)

Module Timeline.

(** Modelled from the spec: [timeline.models.Entry] is missing from the
    sources.  The columns are the ones the constructor calls in
    [hub/models.py] and [teachers/tests_unit.py] pass and the persisted
    CalendarEntry shape of section 6 lists.  Datetimes are minutes counted
    from midnight of day 0 of the proleptic calendar. *)
Record Entry := mkEntry {
  entry_pk : option nat;
  entry_teacher : nat;
  entry_lesson_type : nat;
  entry_lesson_id : nat;
  entry_start : Z;
  entry_end : Z;
  allow_besides_working_hours : bool;
  allow_overlap : bool
}.

Definition set_entry_pk (k : nat) (e : Entry) : Entry :=
  mkEntry (Some k) (entry_teacher e) (entry_lesson_type e) (entry_lesson_id e)
          (entry_start e) (entry_end e)
          (allow_besides_working_hours e) (allow_overlap e).

End Timeline.

(** ** Working hours and the free-slot finder *)

Module Teachers.
Import Timeline.
Local Open Scope Z_scope.

Definition minutes_per_day : Z := 1440.

(** Integer ceiling of [a / b] for a positive [b]. *)
Definition ceil_div (a b : Z) : Z := (a + b - 1) / b.

(** [datetime.combine(date, time)]: a date is its ordinal, a time of day is
    the minute within the day. *)
Definition combine_date (date time_of_day : Z) : Z :=
  date * minutes_per_day + time_of_day.

(** [date.weekday()]: Monday is 0; ordinal 1 is a Monday. *)
Definition weekday (date : Z) : Z := (date + 6) mod 7.

Record WorkingHours := mkWorkingHours {
  wh_teacher : nat;
  wh_weekday : Z;
  wh_start : Z;
  wh_end : Z
}.

Definition matches_template (teacher : nat) (date : Z) (wh : WorkingHours) : bool :=
  (wh_teacher wh =? teacher)%nat && (wh_weekday wh =? weekday date).

(** Modelled from the spec: [WorkingHours.objects.for_date] (section 4.1) is
    in [teachers/models.py], which is missing.  The template of the teacher
    whose weekday is the date's weekday is resolved to a window of concrete
    datetimes; no template gives [None].  Of several templates on one
    weekday the first stored one is taken. *)
Definition for_date (templates : list WorkingHours) (teacher : nat) (date : Z)
  : option (Z * Z) :=
  match find (matches_template teacher date) templates with
  | Some wh => Some (combine_date date (wh_start wh), combine_date date (wh_end wh))
  | None => None
  end.

(** The loop [t = start; while t < end: yield t; t += period].  The fuel
    bounds the number of iterations; [all_slots] supplies one unit per minute
    of the window, which is enough for every positive period. *)
Fixpoint slots_from (fuel : nat) (t window_end period : Z) : list Z :=
  match fuel with
  | O => []
  | S fuel' =>
      if t <? window_end
      then t :: slots_from fuel' (t + period) window_end period
      else []
  end.

Definition all_slots (window_start window_end period : Z) : list Z :=
  slots_from (Z.to_nat (window_end - window_start)) window_start window_end period.

(** Half-open intervals [a] and [b] overlap iff [a.start < b.end] and
    [b.start < a.end]. *)
Definition overlaps (a_start a_end b_start b_end : Z) : bool :=
  (a_start <? b_end) && (b_start <? a_end).

Definition on_date (date : Z) (e : Entry) : bool :=
  (combine_date date 0 <=? entry_start e) && (entry_start e <? combine_date (date + 1) 0).

Definition type_matches (lesson_type : option nat) (e : Entry) : bool :=
  match lesson_type with
  | None => true
  | Some t => (entry_lesson_type e =? t)%nat
  end.

Section FreeSlots.

(** The lesson-type registry of section 6: the duration of a lesson of a
    given type, in minutes. *)
Variable lesson_duration : nat -> Z.

Definition slot_end (period : Z) (lesson_type : option nat) (slot : Z) : Z :=
  match lesson_type with
  | None => slot + period
  | Some t => slot + lesson_duration t
  end.

(** The entries that can take a slot away: those of the teacher, on that
    date, of the filtered lesson type when a filter is given. *)
Definition relevant_entries (entries : list Entry) (teacher : nat) (date : Z)
           (lesson_type : option nat) : list Entry :=
  filter (fun e => (entry_teacher e =? teacher)%nat && on_date date e
                   && type_matches lesson_type e) entries.

Definition slot_is_free (busy : list Entry) (period : Z) (lesson_type : option nat)
           (slot : Z) : bool :=
  forallb (fun e => negb (overlaps slot (slot_end period lesson_type slot)
                                   (entry_start e) (entry_end e))) busy.

(** Modelled from the spec: [Teacher.find_free_slots] (section 4.2) is in
    [teachers/models.py], which is missing; [teachers/tests_unit.py] calls
    it.  [None] says the teacher does not work on that date, [Some []] that
    every slot is taken. *)
Definition find_free_slots (templates : list WorkingHours) (entries : list Entry)
           (teacher : nat) (date : Z) (period : Z) (lesson_type : option nat)
  : option (list Z) :=
  match for_date templates teacher date with
  | None => None
  | Some (window_start, window_end) =>
      Some (filter (slot_is_free (relevant_entries entries teacher date lesson_type)
                                 period lesson_type)
                   (all_slots window_start window_end period))
  end.

End FreeSlots.

(** The fixtures of [TestFreeSlots]: teacher 1 works on Mondays 13:00-15:00
    and on Tuesdays 17:00-19:00; 2016-07-18 is a Monday. *)
Definition hm (h m : Z) : Z := h * 60 + m.
Definition test_templates : list WorkingHours :=
  [ mkWorkingHours 1 0 (hm 13 0) (hm 15 0); mkWorkingHours 1 1 (hm 17 0) (hm 19 0) ].
Definition date_2016_07_18 : Z := 736163.
Definition date_2016_07_20 : Z := 736165.
Definition test_entry (start_ end_ : Z) : Entry :=
  mkEntry (Some 1%nat) 1 1 1 (combine_date date_2016_07_18 start_)
          (combine_date date_2016_07_18 end_) false false.
Definition time_of (slot : Z) : Z := slot mod minutes_per_day.

End Teachers.

(** ** The object-relational layer *)

Module Django.

(** Exceptions that cross the modelled code. *)
Inductive Exn : Type :=
| CannotBeScheduled
| CannotBeUnscheduled
| DoesNotExist.

(** A computation over a world [W] either returns or raises; the world, that
    is the Python objects and the database rows, survives an exception. *)
Definition M (W A : Type) : Type := W -> (Exn + A) * W.

Definition ret {W A : Type} (a : A) : M W A := fun w => (inr a, w).

Definition bind {W A B : Type} (m : M W A) (k : A -> M W B) : M W B :=
  fun w =>
    match m w with
    | (inl e, w') => (inl e, w')
    | (inr a, w') => k a w'
    end.

Definition raise {W A : Type} (e : Exn) : M W A := fun w => (inl e, w).

Definition gets {W A : Type} (f : W -> A) : M W A := fun w => (inr (f w), w).

Definition modify {W : Type} (f : W -> W) : M W unit := fun w => (inr tt, f w).

Fixpoint for_each {W A : Type} (xs : list A) (body : A -> M W unit) : M W unit :=
  match xs with
  | [] => ret tt
  | x :: rest => bind (body x) (fun _ => for_each rest body)
  end.

(** Truth value of a primary key in [if self.pk:]: [None] and [0] are false. *)
Definition pk_truthy (pk : option nat) : bool :=
  match pk with
  | Some (S _) => true
  | _ => false
  end.

Section Table.
Context {R : Type}.

(** A table: rows under their primary keys, in insertion order. *)
Definition table : Type := list (nat * R).

Definition keys (t : table) : list nat := map fst t.

Definition has_key (k : nat) (kr : nat * R) : bool := fst kr =? k.

Definition get (k : nat) (t : table) : option R :=
  option_map snd (find (has_key k) t).

Definition exists_pk (k : nat) (t : table) : bool := existsb (has_key k) t.

(** The key an [AutoField] hands out next. *)
Definition next_pk (t : table) : nat := S (list_max (keys t)).

(** The key an instance has once saved: its own, or a fresh one. *)
Definition key_for (pk : option nat) (t : table) : nat :=
  match pk with
  | Some k => k
  | None => next_pk t
  end.

(** [UPDATE ... WHERE pk = k]. *)
Definition update (k : nat) (r : R) (t : table) : table :=
  map (fun kr => if has_key k kr then (k, r) else kr) t.

Definition insert (k : nat) (r : R) (t : table) : table := t ++ [(k, r)].

(** A row after a batch of updates [rows] that set each listed key to [f] of
    the listed row. *)
Definition rewrite_row (f : R -> R) (rows : table) (kr : nat * R) : nat * R :=
  match find (has_key (fst kr)) rows with
  | Some x => (fst kr, f (snd x))
  | None => kr
  end.

(** [Model.save] of the framework: an instance that has a key updates its
    row and inserts it when there is none; an instance without a key is
    inserted under a fresh one. *)
Definition save_base (pk : option nat) (r : R) (t : table) : nat * table :=
  match pk with
  | Some k => if exists_pk k t then (k, update k r t) else (k, insert k r t)
  | None => (next_pk t, insert (next_pk t) r t)
  end.

End Table.
Arguments table R : clear implicits.

End Django.

Declare Scope py_scope.
Delimit Scope py_scope with py.
Notation "x <- m ;; k" := (Django.bind m (fun x => k))
  (at level 61, m at next level, right associativity) : py_scope.
Notation "m ;; k" := (Django.bind m (fun _ => k))
  (at level 61, right associativity) : py_scope.

(** ** Subscriptions and bought classes ([hub/models.py]) *)

Module Hub.
Import Django Timeline String.StringSyntax.
Local Open Scope py_scope.

(** [MoneyField]: an amount in hundredths and a currency code. *)
Record Money := mkMoney {
  amount : Z;
  currency : String.string
}.

(** A lesson instance as the generic foreign key sees it: the content type
    of its model and its primary key. *)
Record Lesson := mkLesson {
  lesson_content_type : nat;
  lesson_pk : nat
}.

(** The product of a subscription: [LESSONS] names the lesson attributes,
    [product_attr] is [getattr(product, name).all()]. *)
Record Product := mkProduct {
  LESSONS : list String.string;
  product_attr : String.string -> list Lesson
}.

(** The columns of [Subscription]; [sub_buy_price] and [sub_active] come
    from [BuyableProduct]. *)
Record SubscriptionRow := mkSubscriptionRow {
  sub_customer : nat;
  product_type : nat;
  product_id : nat;
  sub_buy_price : Money;
  sub_active : Z
}.

(** A [Subscription] instance: its key once saved, its columns, and the
    [request] attribute a caller may have attached. *)
Record Subscription := mkSubscription {
  sub_pk : option nat;
  sub_row : SubscriptionRow;
  sub_request : option nat
}.

(** The columns of [Class]; [buy_price] and [active] come from
    [BuyableProduct].  The [auto_now_add] timestamps are left out. *)
Record ClassRow := mkClassRow {
  customer : nat;
  buy_price : Money;
  active : Z;
  is_scheduled : bool;
  buy_source : Z;
  lesson_type : nat;
  lesson_id : nat;
  timeline_entry_id : option nat;
  subscription_id : option nat
}.

(** A [Class] instance: key, columns, the entry object held by the
    [timeline_entry] descriptor when one was assigned or fetched, and the
    optional [request] attribute. *)
Record BoughtClass := mkBoughtClass {
  class_pk : option nat;
  class_row : ClassRow;
  timeline_entry_cache : option Entry;
  class_request : option nat
}.

Record Store := mkStore {
  subscriptions : table SubscriptionRow;
  classes : table ClassRow;
  entries : table Entry
}.

(** The running method's [self] and the database. *)
Record World (O : Type) := mkWorld {
  self : O;
  db : Store
}.
Arguments mkWorld {O} _ _.
Arguments self {O} _.
Arguments db {O} _.

Definition set_active (a : Z) (r : ClassRow) : ClassRow :=
  mkClassRow (customer r) (buy_price r) a (is_scheduled r) (buy_source r)
             (lesson_type r) (lesson_id r) (timeline_entry_id r) (subscription_id r).

Definition set_is_scheduled (b : bool) (r : ClassRow) : ClassRow :=
  mkClassRow (customer r) (buy_price r) (active r) b (buy_source r)
             (lesson_type r) (lesson_id r) (timeline_entry_id r) (subscription_id r).

Definition set_timeline_entry_id (k : option nat) (r : ClassRow) : ClassRow :=
  mkClassRow (customer r) (buy_price r) (active r) (is_scheduled r) (buy_source r)
             (lesson_type r) (lesson_id r) k (subscription_id r).

Definition with_row (f : ClassRow -> ClassRow) (c : BoughtClass) : BoughtClass :=
  mkBoughtClass (class_pk c) (f (class_row c)) (timeline_entry_cache c) (class_request c).

Definition with_class_pk (k : nat) (c : BoughtClass) : BoughtClass :=
  mkBoughtClass (Some k) (class_row c) (timeline_entry_cache c) (class_request c).

Definition with_cache (e : option Entry) (c : BoughtClass) : BoughtClass :=
  mkBoughtClass (class_pk c) (class_row c) e (class_request c).

(** [self.timeline_entry = e]: the descriptor keeps the object and copies
    its key, as it is at that moment, into the column. *)
Definition assign_timeline_entry (e : option Entry) (c : BoughtClass) : BoughtClass :=
  with_cache e (with_row (set_timeline_entry_id
                            (match e with Some x => entry_pk x | None => None end)) c).

Definition with_classes (t : table ClassRow) (st : Store) : Store :=
  mkStore (subscriptions st) t (entries st).

Definition with_entries (t : table Entry) (st : Store) : Store :=
  mkStore (subscriptions st) (classes st) t.

Definition with_subscriptions (t : table SubscriptionRow) (st : Store) : Store :=
  mkStore t (classes st) (entries st).

Definition on_self {O : Type} (f : O -> O) : M (World O) unit :=
  modify (fun w => mkWorld (f (self w)) (db w)).

(** Run a method of another object [o] against the current database. *)
Definition call_on {O O' A : Type} (o : O') (m : M (World O') A) : M (World O) A :=
  fun w =>
    let (r, w') := m (mkWorld o (db w)) in
    (r, mkWorld (self w) (db w')).

(** Modelled from the spec: [timeline.models.Entry.save] is missing from the
    sources; the spec only says the entry is persisted.  The row is written
    the way the framework writes any model and the object learns its key. *)
Definition Entry_save (e : Entry) (st : Store) : Entry * Store :=
  let k := key_for (entry_pk e) (entries st) in
  (set_entry_pk k e,
   with_entries (snd (save_base (entry_pk e) (set_entry_pk k e) (entries st))) st).

Definition save_entry {O : Type} (e : Entry) : M (World O) Entry :=
  fun w =>
    let (e', st) := Entry_save e (db w) in
    (inr e', mkWorld (self w) st).

(** Reading [self.timeline_entry]: the held object if there is one, nothing
    if the column is empty, otherwise the row the column points at, fetched
    and kept. *)
Definition get_timeline_entry : M (World BoughtClass) (option Entry) :=
  fun w =>
    match timeline_entry_cache (self w) with
    | Some e => (inr (Some e), w)
    | None =>
        match timeline_entry_id (class_row (self w)) with
        | None => (inr None, w)
        | Some k =>
            match get k (entries (db w)) with
            | Some e =>
                (inr (Some (set_entry_pk k e)),
                 mkWorld (with_cache (Some (set_entry_pk k e)) (self w)) (db w))
            | None => (inl DoesNotExist, w)
            end
        end
    end.

(** [super().save()] of a [Class]. *)
Definition Class_super_save : M (World BoughtClass) unit :=
  fun w =>
    let (k, t) := save_base (class_pk (self w)) (class_row (self w)) (classes (db w)) in
    (inr tt, mkWorld (with_class_pk k (self w)) (with_classes t (db w))).

(** [Class.save]. *)
Definition Class_save : M (World BoughtClass) unit :=
  te <- get_timeline_entry ;;
  match te with
  | Some e =>
      (if negb (pk_truthy (entry_pk e))
       then e' <- save_entry e ;;
            on_self (assign_timeline_entry (Some e'))
       else ret tt) ;;
      on_self (with_row (set_is_scheduled true))
  | None => on_self (with_row (set_is_scheduled false))
  end ;;
  Class_super_save ;;
  te' <- get_timeline_entry ;;
  match te' with
  | Some e => e' <- save_entry e ;; on_self (with_cache (Some e'))
  | None => ret tt
  end.

Section Scheduling.

(** Modelled from the spec: [Entry.is_free] and
    [Entry.is_fitting_working_hours] belong to the missing
    [timeline.models]; both only read the entry and the database. *)
Variable is_free : Store -> Entry -> bool.
Variable is_fitting_working_hours : Store -> Entry -> bool.

(** [Class.can_be_scheduled]. *)
Definition can_be_scheduled (entry : Entry) (w : World BoughtClass) : bool :=
  if is_scheduled (class_row (self w)) then false
  else if negb (is_free (db w) entry) then false
  else if negb (lesson_type (class_row (self w)) =? entry_lesson_type entry) then false
  else if negb (allow_besides_working_hours entry)
          && negb (is_fitting_working_hours (db w) entry) then false
  else true.

(** [Class.assign_entry]. *)
Definition assign_entry (entry : Entry) : M (World BoughtClass) unit :=
  ok <- gets (can_be_scheduled entry) ;;
  if negb ok then raise CannotBeScheduled
  else on_self (assign_timeline_entry (Some entry)).

End Scheduling.

(** Equality of two nullable keys. *)
Definition same_key (a b : option nat) : bool :=
  match a, b with
  | Some a, Some b => a =? b
  | None, None => true
  | _, _ => false
  end.

(** [self.filter(pk__in={obj.pk}).update(timeline_entry=None)] on the
    related manager of an entry: the rows of that entry whose key is [pk]
    get an empty entry column; no flag and no other row is touched. *)
Definition clear_entry_column (pk entry_key : option nat) (t : table ClassRow)
  : table ClassRow :=
  map (fun kr =>
         if match pk with
            | Some k => has_key k kr
            | None => false
            end
            && same_key (timeline_entry_id (snd kr)) entry_key
         then (fst kr, set_timeline_entry_id None (snd kr))
         else kr)
      t.

(** [entry.classes.remove(self)]: the related manager first checks that the
    entry column of [self] holds the key of [entry] and raises
    [DoesNotExist] ("is not related to") when it does not; otherwise it
    clears the column in the stored row of [self] with an [UPDATE].  It
    neither calls [Class.save] nor touches the Python object. *)
Definition classes_remove (entry : Entry) : M (World BoughtClass) unit :=
  fun w =>
    if same_key (timeline_entry_id (class_row (self w))) (entry_pk entry)
    then (inr tt,
          mkWorld (self w)
                  (with_classes
                     (clear_entry_column (class_pk (self w)) (entry_pk entry)
                                         (classes (db w)))
                     (db w)))
    else (inl DoesNotExist, w).

(** [Class.unschedule]. *)
Definition unschedule : M (World BoughtClass) unit :=
  te <- get_timeline_entry ;;
  match te with
  | None => raise CannotBeUnscheduled
  | Some entry =>
      classes_remove entry ;;
      on_self (assign_timeline_entry None) ;;
      _ <- save_entry entry ;;
      ret tt
  end.

(** Whether [self.timeline_entry] holds an entry. *)
Definition has_entry (te : option Entry) : bool :=
  match te with
  | Some _ => true
  | None => false
  end.

(** An instance built from a stored row, as a queryset yields it. *)
Definition load_class (kr : nat * ClassRow) : BoughtClass :=
  mkBoughtClass (Some (fst kr)) (snd kr) None None.

Definition linked_to (pk : option nat) (kr : nat * ClassRow) : bool :=
  match pk, subscription_id (snd kr) with
  | Some k, Some k' => k' =? k
  | _, _ => false
  end.

(** The row [lesson.active = self.active; lesson.save()] writes back for a
    stored row: the new flag, and [is_scheduled] as [Class.save] recomputes
    it from the entry column. *)
Definition cascaded (a : Z) (r : ClassRow) : ClassRow :=
  set_is_scheduled (match timeline_entry_id r with Some _ => true | None => false end)
                   (set_active a r).

Definition cascade (pk : option nat) (a : Z) (kr : nat * ClassRow) : nat * ClassRow :=
  if linked_to pk kr then (fst kr, cascaded a (snd kr)) else kr.

(** The body of the loop in [__update_classes]:
    [lesson.active = self.active; lesson.save()]. *)
Definition cascade_body (a : Z) (kr : nat * ClassRow) : M (World Subscription) unit :=
  call_on (with_row (set_active a) (load_class kr)) Class_save.

(** [Subscription.objects.get(pk=...)]. *)
Definition Subscription_objects_get {O : Type} (pk : option nat)
  : M (World O) SubscriptionRow :=
  fun w =>
    match pk with
    | Some k =>
        match get k (subscriptions (db w)) with
        | Some row => (inr row, w)
        | None => (inl DoesNotExist, w)
        end
    | None => (inl DoesNotExist, w)
    end.

(** [self.classes.all()]: the stored rows whose subscription is [pk]. *)
Definition classes_all {O : Type} (pk : option nat) : M (World O) (table ClassRow) :=
  gets (fun w => filter (linked_to pk) (classes (db w))).

(** [Subscription.__update_classes]. *)
Definition update_classes : M (World Subscription) unit :=
  s <- gets self ;;
  orig <- Subscription_objects_get (sub_pk s) ;;
  if negb (sub_active orig =? sub_active (sub_row s))%Z
  then rows <- classes_all (sub_pk s) ;;
       for_each rows (cascade_body (sub_active (sub_row s)))
  else ret tt.

(** [super().save()] of a [Subscription]. *)
Definition Subscription_super_save : M (World Subscription) unit :=
  fun w =>
    let (k, t) := save_base (sub_pk (self w)) (sub_row (self w)) (subscriptions (db w)) in
    (inr tt, mkWorld (mkSubscription (Some k) (sub_row (self w)) (sub_request (self w)))
                     (with_subscriptions t (db w))).

Section Provisioning.

(** The product catalog: what the generic foreign key
    [(product_type, product_id)] resolves to. *)
Variable product_of : nat -> nat -> Product.

(** [Class(lesson=..., subscription=self, customer=..., buy_price=...,
    buy_source=1)], with the [request] attribute passed on when present. *)
Definition new_class (s : Subscription) (lesson : Lesson) : BoughtClass :=
  mkBoughtClass None
    (mkClassRow (sub_customer (sub_row s)) (sub_buy_price (sub_row s)) 1 false 1
                (lesson_content_type lesson) (lesson_pk lesson) None (sub_pk s))
    None (sub_request s).

(** [Subscription.__add_lessons_to_user]. *)
Definition add_lessons_to_user : M (World Subscription) unit :=
  product <- gets (fun w => product_of (product_type (sub_row (self w)))
                                       (product_id (sub_row (self w)))) ;;
  for_each (LESSONS product)
    (fun lesson_type =>
       for_each (product_attr product lesson_type)
         (fun lesson =>
            s <- gets self ;;
            call_on (new_class s lesson) Class_save)).

(** [Subscription.save]. *)
Definition Subscription_save : M (World Subscription) unit :=
  is_new <- gets (fun w => negb (pk_truthy (sub_pk (self w)))) ;;
  (if negb is_new then update_classes else ret tt) ;;
  Subscription_super_save ;;
  (if is_new then add_lessons_to_user else ret tt).

(** The lesson units of a product, in the order the two loops visit them. *)
Definition lesson_units (p : Product) : list Lesson :=
  flat_map (product_attr p) (LESSONS p).

End Provisioning.

(** Sample data.  A saved, unscheduled single-bought class of customer 5
    and a fresh entry of the same lesson type, with entries that are always
    free and always fit the working hours; a product with two ordinary
    lessons and one master class; a subscription to it, new and stored. *)
Section Samples.
Open Scope string_scope.

Definition usd (hundredths : Z) : Money := mkMoney hundredths "USD".

Definition sample_product : Product :=
  mkProduct [ "ordinary_lessons"; "master_classes" ]
            (fun name =>
               if String.eqb name "ordinary_lessons" then [mkLesson 3 11; mkLesson 3 12]
               else if String.eqb name "master_classes" then [mkLesson 4 21]
               else []).

End Samples.

Definition sample_row : ClassRow :=
  mkClassRow 5 (usd 1000) 1 false 0 3 11 None None.
Definition sample_class : BoughtClass := mkBoughtClass (Some 1) sample_row None None.
Definition sample_store : Store := mkStore [] [(1, sample_row)] [].
Definition sample_world : World BoughtClass := mkWorld sample_class sample_store.
Definition sample_entry : Entry := mkEntry None 7 3 11 1000 1030 false true.
Definition always (b : bool) : Store -> Entry -> bool := fun _ _ => b.

(** The sample class after [assign_entry(sample_entry)] and [save()]. *)
Definition scheduled_world : World BoughtClass :=
  snd (Class_save
         (snd (assign_entry (always true) (always true) sample_entry sample_world))).

Definition sample_catalog : nat -> nat -> Product := fun _ _ => sample_product.

Definition new_subscription : World Subscription :=
  mkWorld (mkSubscription None (mkSubscriptionRow 5 9 1 (usd 9900) 1) (Some 77))
          sample_store.

(** Subscription 1 is stored as active and owns classes 2 (scheduled into
    entry 1) and 3; class 1 was bought on its own.  The object being saved
    has [active = 0]. *)
Definition stored_entry : Entry := mkEntry (Some 1) 7 3 11 1000 1030 false true.
Definition stored_store : Store :=
  mkStore [(1, mkSubscriptionRow 5 9 1 (usd 9900) 1)]
          [ (1, sample_row);
            (2, mkClassRow 5 (usd 9900) 1 true 1 3 11 (Some 1) (Some 1));
            (3, mkClassRow 5 (usd 9900) 1 false 1 4 21 None (Some 1)) ]
          [(1, stored_entry)].
Definition disabled_subscription : World Subscription :=
  mkWorld (mkSubscription (Some 1) (mkSubscriptionRow 5 9 1 (usd 9900) 0) None)
          stored_store.

(** The Python dict [sort_order] of [bought_lesson_types]: integer keys,
    each once, in the order they were first set. *)
Fixpoint dict_set (k : Z) (v : nat) (d : list (Z * nat)) : list (Z * nat) :=
  match d with
  | [] => [(k, v)]
  | (k', v') :: rest =>
      if (k' =? k)%Z then (k, v) :: rest else (k', v') :: dict_set k v rest
  end.

Fixpoint dict_get (k : Z) (d : list (Z * nat)) : option nat :=
  match d with
  | [] => None
  | (k', v') :: rest => if (k' =? k)%Z then Some v' else dict_get k rest
  end.

Definition dict_keys (d : list (Z * nat)) : list Z := map fst d.

(** [sorted(...)] on integers. *)
Fixpoint insert_sorted (x : Z) (l : list Z) : list Z :=
  match l with
  | [] => [x]
  | y :: rest => if (x <=? y)%Z then x :: l else y :: insert_sorted x rest
  end.

Definition sorted (l : list Z) : list Z := fold_right insert_sorted [] l.

(** [timeline_entry__isnull=True]. *)
Definition unscheduled (kr : nat * ClassRow) : bool :=
  match timeline_entry_id (snd kr) with
  | None => true
  | Some _ => false
  end.

(** [filter(timeline_entry__isnull=True).values_list('lesson_type',
    flat=True).distinct()]. *)
Definition unscheduled_types (queryset : table ClassRow) : list nat :=
  nodup Nat.eq_dec (map (fun kr => lesson_type (snd kr)) (filter unscheduled queryset)).

(** [ContentType.objects.filter(pk__in=types)]. *)
Definition content_types_in (types content_types : list nat) : list nat :=
  filter (fun t => existsb (Nat.eqb t) types) content_types.

Section Planning.

(** [Model.sort_order()] of the lesson model behind a content type
    ([lessons.models], not among the sources); [None] when the model
    declares no order. *)
Variable sort_order : nat -> option Z.

(** [t] comes before [t'] by the declared orders. *)
Definition sorts_before (t t' : nat) : Prop :=
  match sort_order t, sort_order t' with
  | Some o, Some o' => (o < o')%Z
  | _, _ => False
  end.

(** One turn of the loop over the content types: [if order:] skips both
    [None] and [0]. *)
Definition note_order (d : list (Z * nat)) (t : nat) : list (Z * nat) :=
  match sort_order t with
  | Some order => if (order =? 0)%Z then d else dict_set order t d
  | None => d
  end.

(** [ClassesManager.bought_lesson_types].  [content_types] are the keys of
    the content type table in the order a query yields them, [queryset] is
    what [get_queryset()] gives.  A key of the dict always has a value; the
    empty branch stands for the [KeyError] that cannot happen. *)
Definition bought_lesson_types (content_types : list nat) (queryset : table ClassRow)
  : list nat :=
  let types := unscheduled_types queryset in
  let found := content_types_in types content_types in
  let sort_order_dict := fold_left note_order found [] in
  flat_map (fun i => match dict_get i sort_order_dict with
                     | Some t => [t]
                     | None => []
                     end)
           (sorted (dict_keys sort_order_dict)).

End Planning.

(** [ClassesManager.dates_for_planning]: [current = now; end = current + 7
    days; while current < end: yield current; current += 1 day], the loop
    of [Teachers.slots_from], with [datetime.now()] given. *)
Definition dates_for_planning (now : Z) : list Z :=
  Teachers.all_slots now (now + 7 * Teachers.minutes_per_day) Teachers.minutes_per_day.

Section Schedule.

Variable is_free : Store -> Entry -> bool.
Variable is_fitting_working_hours : Store -> Entry -> bool.

(** [Lesson.timeline_entry_required()], a class method of the lesson model
    ([lessons.models], not among the sources), by content type. *)
Variable timeline_entry_required : nat -> bool.

(** [schedule] builds the entry without an [end].  The record has no unset
    datetime, so the value the field holds on the fresh object is taken as
    given.  The spec derives the end of a stored entry from the duration of
    its lesson; that is the work of [Entry.save], which is not among the
    sources, and it is not modelled: no statement is made about the end of
    an entry that [schedule] built. *)
Variable unset_end : Z.

(** [self.lesson]: the generic foreign key [(lesson_type, lesson_id)]. *)
Definition lesson_of (c : BoughtClass) : Lesson :=
  mkLesson (lesson_type (class_row c)) (lesson_id (class_row c)).

(** [TimelineEntry(teacher=..., lesson=..., start=..., allow_besides_working_hours=...,
    allow_overlap=...)]. *)
Definition new_entry (teacher : nat) (lesson : Lesson) (start : Z)
           (allow_besides allow_overlap_ : bool) : Entry :=
  mkEntry None teacher (lesson_content_type lesson) (lesson_pk lesson)
          start unset_end allow_besides allow_overlap_.

(** [Class.schedule]; the defaults of the last two arguments are
    [allow_overlap=True] and [allow_besides_working_hours=False]. *)
Definition schedule (teacher : nat) (date : Z)
           (allow_overlap_ allow_besides : bool) : M (World BoughtClass) unit :=
  lesson <- gets (fun w => lesson_of (self w)) ;;
  if timeline_entry_required (lesson_content_type lesson)
  then raise CannotBeScheduled
  else assign_entry is_free is_fitting_working_hours
         (new_entry teacher lesson date allow_besides allow_overlap_).

End Schedule.

(** More sample data: the sample class holding the fresh sample entry, a
    second entry, an ordering in which master classes (type 4) come before
    ordinary lessons (type 3), and a stored subscription object that was
    not changed. *)
Definition assigned_world : World BoughtClass :=
  mkWorld (assign_timeline_entry (Some sample_entry) sample_class) sample_store.
Definition other_entry : Entry := mkEntry None 8 3 11 2000 2030 false true.
Definition sample_sort_order (t : nat) : option Z :=
  if t =? 3 then Some 2%Z else if t =? 4 then Some 1%Z else if t =? 5 then Some 0%Z
  else None.
Definition same_subscription : World Subscription :=
  mkWorld (mkSubscription (Some 1) (mkSubscriptionRow 5 9 1 (usd 9900) 1) None)
          stored_store.
Definition orphan_subscription : World Subscription :=
  mkWorld (mkSubscription (Some 7) (mkSubscriptionRow 5 9 1 (usd 9900) 1) None)
          sample_store.

(** [subscription.active = a] on the Python object. *)
Definition set_sub_active (a : Z) (s : Subscription) : Subscription :=
  mkSubscription (sub_pk s)
    (mkSubscriptionRow (sub_customer (sub_row s)) (product_type (sub_row s))
                       (product_id (sub_row s)) (sub_buy_price (sub_row s)) a)
    (sub_request s).

End Hub.

(** ** Customers ([crm/models.py]) *)

Module Crm.
Import String.StringSyntax.

(** The attributes of the stock [User] that [Customer] reads. *)
Record User := mkUser {
  user_first_name : String.string;
  user_last_name : String.string;
  user_email : String.string
}.

Record Customer := mkCustomer {
  user : option User;
  customer_first_name : String.string;
  customer_last_name : String.string;
  customer_email : String.string
}.

(** The names [_get_user_property] is called with. *)
Inductive Property : Type :=
| P_email
| P_first_name
| P_last_name.

(** [getattr(self.user, property)]. *)
Definition user_attr (u : User) (property : Property) : String.string :=
  match property with
  | P_email => user_email u
  | P_first_name => user_first_name u
  | P_last_name => user_last_name u
  end.

(** [getattr(self, 'customer_' + property)]. *)
Definition customer_attr (c : Customer) (property : Property) : String.string :=
  match property with
  | P_email => customer_email c
  | P_first_name => customer_first_name c
  | P_last_name => customer_last_name c
  end.

(** [Customer._get_user_property]. *)
Definition get_user_property (c : Customer) (property : Property) : String.string :=
  match user c with
  | Some u => user_attr u property
  | None => customer_attr c property
  end.

Definition email (c : Customer) : String.string := get_user_property c P_email.
Definition first_name (c : Customer) : String.string := get_user_property c P_first_name.
Definition last_name (c : Customer) : String.string := get_user_property c P_last_name.

Section Names.
Open Scope string_scope.

(** [Customer.full_name]: ['%s %s' % (self.first_name, self.last_name)]. *)
Definition full_name (c : Customer) : String.string :=
  String.append (first_name c) (String.append " " (last_name c)).

End Names.

(** [Customer.__str__]. *)
Definition Customer_str (c : Customer) : String.string := full_name c.

End Crm.

(** ** The admin filters of bought classes ([market/admin/classes.py]) *)

Module MarketAdmin.

Section Filters.

(** [market.models.Class] is not among the sources; the filters read its
    [subscription] column and its [is_fully_used] flag. *)
Variable Row : Type.
Variable subscription : Row -> option nat.
Variable is_fully_used : Row -> bool.

Definition isnull (r : Row) : bool :=
  match subscription r with
  | None => true
  | Some _ => false
  end.

(** [BuySubscriptionFilter.t]: [queryset.filter(subscription__isnull=True)]. *)
Definition BuySubscriptionFilter_t (queryset : list Row) : list Row :=
  filter isnull queryset.

(** [BuySubscriptionFilter.f]: [queryset.filter(subscription__isnull=False)]. *)
Definition BuySubscriptionFilter_f (queryset : list Row) : list Row :=
  filter (fun r => negb (isnull r)) queryset.

(** [AvailableFilter.t]: [queryset.filter(is_fully_used=False)]. *)
Definition AvailableFilter_t (queryset : list Row) : list Row :=
  filter (fun r => negb (is_fully_used r)) queryset.

(** [AvailableFilter.f]: [queryset.filter(is_fully_used=True)]. *)
Definition AvailableFilter_f (queryset : list Row) : list Row :=
  filter is_fully_used queryset.

End Filters.

End MarketAdmin.

(** * Properties *)

(** ** The safety check *)

Section SafetyFacts.
Import ExtEvents.

(** C1: [is_safe] is true when the new batch is at least as long as the old
    one, false when the new batch is empty and the old one is not, and
    otherwise true exactly when twice the new length reaches the number of
    old events without a parent; the four batches of the unit tests come
    out safe, safe, unsafe and unsafe. *)
Theorem is_safe_policy :
  (forall old_events new_events,
      (length old_events <= length new_events ->
       is_safe old_events new_events = true)
      /\ (length new_events = 0 -> 0 < length old_events ->
          is_safe old_events new_events = false)
      /\ (length new_events < length old_events -> length new_events <> 0 ->
          (is_safe old_events new_events = true
           <-> non_recurring old_events <= length new_events * 2)))
  /\ is_safe (repeat plain_event 10) (repeat plain_event 8) = true
  /\ is_safe (plain_event :: plain_event :: repeat (child_event 2) 10)
             (repeat plain_event 2) = true
  /\ non_recurring (plain_event :: plain_event :: repeat (child_event 2) 10) = 2
  /\ is_safe (repeat plain_event 10) [] = false
  /\ is_safe (repeat plain_event 10) (repeat plain_event 3) = false.
Proof.
  split; [| repeat split; reflexivity].
  intros old_events new_events. unfold is_safe.
  repeat split.
  - intros Hle. apply Nat.leb_le in Hle. now rewrite Hle.
  - intros Hzero Hpos.
    destruct (length old_events <=? length new_events) eqn:Hcmp.
    + apply Nat.leb_le in Hcmp. lia.
    + rewrite Hzero. simpl. apply Nat.ltb_lt in Hpos. now rewrite Hpos.
  - intros Hsafe.
    destruct (length old_events <=? length new_events) eqn:Hcmp.
    + apply Nat.leb_le in Hcmp. lia.
    + destruct (length new_events =? 0) eqn:Hz.
      * apply Nat.eqb_eq in Hz. lia.
      * simpl in Hsafe. now apply Nat.leb_le.
  - intros Hhalf.
    destruct (length old_events <=? length new_events) eqn:Hcmp; [reflexivity|].
    destruct (length new_events =? 0) eqn:Hz.
    + apply Nat.eqb_eq in Hz. lia.
    + simpl. now apply Nat.leb_le.
Qed.

End SafetyFacts.

(** ** The free-slot finder *)

Section FreeSlotFacts.
Import Timeline Teachers.
Local Open Scope Z_scope.

Variable lesson_duration : nat -> Z.

Lemma ceil_div_bounds (a b : Z) :
  0 < b -> (ceil_div a b - 1) * b < a <= ceil_div a b * b.
Proof.
  intros Hb. unfold ceil_div.
  pose proof (Z.div_mod (a + b - 1) b ltac:(lia)) as Hdm.
  pose proof (Z.mod_pos_bound (a + b - 1) b Hb) as Hmod.
  nia.
Qed.

Lemma ceil_div_nonpos (a b : Z) : 0 < b -> a <= 0 -> ceil_div a b <= 0.
Proof.
  intros Hb Ha. pose proof (ceil_div_bounds a b Hb). nia.
Qed.

Lemma ceil_div_step (a b : Z) :
  0 < b -> 0 < a -> ceil_div a b = 1 + ceil_div (a - b) b /\ 0 <= ceil_div (a - b) b.
Proof.
  intros Hb Ha. unfold ceil_div. split.
  - replace (a + b - 1) with (a - b + b - 1 + 1 * b) by lia.
    rewrite Z.div_add by lia. lia.
  - apply Z.div_pos; lia.
Qed.

Lemma slots_from_grid (fuel : nat) :
  forall t window_end period,
    0 < period ->
    window_end - t <= Z.of_nat fuel ->
    slots_from fuel t window_end period
    = map (fun i => t + Z.of_nat i * period)
          (seq 0 (Z.to_nat (ceil_div (window_end - t) period))).
Proof.
  induction fuel as [|fuel IH]; intros t window_end period Hp Hfuel.
  - simpl. pose proof (ceil_div_nonpos (window_end - t) period Hp ltac:(lia)).
    replace (Z.to_nat (ceil_div (window_end - t) period)) with 0%nat by lia.
    reflexivity.
  - simpl slots_from. destruct (t <? window_end) eqn:Hlt.
    + apply Z.ltb_lt in Hlt.
      destruct (ceil_div_step (window_end - t) period Hp ltac:(lia)) as [Hstep Hrest].
      rewrite Hstep.
      replace (Z.to_nat (1 + ceil_div (window_end - t - period) period))
        with (S (Z.to_nat (ceil_div (window_end - t - period) period))) by lia.
      rewrite IH by lia.
      simpl seq. simpl map. f_equal; [lia|].
      rewrite <- seq_shift, map_map.
      replace (window_end - (t + period)) with (window_end - t - period) by lia.
      apply map_ext. intros i. lia.
    + apply Z.ltb_ge in Hlt.
      pose proof (ceil_div_nonpos (window_end - t) period Hp ltac:(lia)).
      replace (Z.to_nat (ceil_div (window_end - t) period)) with 0%nat by lia.
      reflexivity.
Qed.

Lemma all_slots_grid (window_start window_end period : Z) :
  0 < period ->
  all_slots window_start window_end period
  = map (fun i => window_start + Z.of_nat i * period)
        (seq 0 (Z.to_nat (ceil_div (window_end - window_start) period))).
Proof.
  intros Hp. unfold all_slots. apply slots_from_grid; lia.
Qed.

Lemma slot_is_free_nil (period : Z) (lesson_type : option nat) (slot : Z) :
  slot_is_free lesson_duration [] period lesson_type slot = true.
Proof. reflexivity. Qed.

Lemma filter_all_true {A : Type} (f : A -> bool) (l : list A) :
  (forall x, In x l -> f x = true) -> filter f l = l.
Proof.
  induction l as [|x l IH]; intros Hall; simpl; [reflexivity|].
  rewrite (Hall x (or_introl eq_refl)). f_equal. apply IH.
  intros y Hy. apply Hall. now right.
Qed.

Lemma nth_map_seq {A : Type} (f : nat -> A) (n i : nat) (d : A) :
  (i < n)%nat -> nth i (map f (seq 0 n)) d = f i.
Proof.
  intros Hi.
  rewrite (nth_indep _ d (f 0%nat)) by (rewrite length_map, length_seq; exact Hi).
  rewrite (map_nth f), seq_nth by exact Hi. reflexivity.
Qed.

(** [test_working_hours_for_date]: the Monday template resolves to
    13:00-15:00 of that day, the Wednesday has none. *)
Example working_hours_for_date :
  for_date test_templates 1 date_2016_07_18
  = Some (combine_date date_2016_07_18 (hm 13 0), combine_date date_2016_07_18 (hm 15 0))
  /\ weekday date_2016_07_18 = 0
  /\ for_date test_templates 1 date_2016_07_20 = None.
Proof. repeat split. Qed.

(** C8: with a template covering [[s, e)] on the date's weekday, a positive
    period and no calendar entries, the unfiltered finder returns the slots
    [s, s + g, ...]: their number is the ceiling of [(e - s) / g], the first
    is [s], consecutive slots differ by [g] and all lie before [e]; the
    13:00-15:00 Monday gives 4 slots ending 14:30 at 30 minutes and 6 ending
    14:40 at 20 minutes; a date without a template gives [None], which is
    not the empty sequence. *)
Theorem find_free_slots_grid :
  (forall templates teacher date period wh,
      0 < period ->
      find (matches_template teacher date) templates = Some wh ->
      wh_start wh < wh_end wh ->
      exists slots,
        find_free_slots lesson_duration templates [] teacher date period None = Some slots
        /\ Z.of_nat (length slots) = ceil_div (wh_end wh - wh_start wh) period
        /\ (Z.of_nat (length slots) - 1) * period < wh_end wh - wh_start wh
           <= Z.of_nat (length slots) * period
        /\ nth 0 slots 0 = combine_date date (wh_start wh)
        /\ (forall i, (S i < length slots)%nat ->
                      nth (S i) slots 0 = nth i slots 0 + period)
        /\ (forall i, (i < length slots)%nat ->
                      nth i slots 0 = combine_date date (wh_start wh) + Z.of_nat i * period)
        /\ (forall t, In t slots -> t < combine_date date (wh_end wh)))
  /\ (forall templates entries teacher date period,
         find (matches_template teacher date) templates = None ->
         find_free_slots lesson_duration templates entries teacher date period None = None
         /\ find_free_slots lesson_duration templates entries teacher date period None
            <> Some [])
  /\ option_map (map time_of)
       (find_free_slots lesson_duration test_templates [] 1 date_2016_07_18 30 None)
     = Some [hm 13 0; hm 13 30; hm 14 0; hm 14 30]
  /\ option_map (map time_of)
       (find_free_slots lesson_duration test_templates [] 1 date_2016_07_18 20 None)
     = Some [hm 13 0; hm 13 20; hm 13 40; hm 14 0; hm 14 20; hm 14 40]
  /\ find_free_slots lesson_duration test_templates [] 1 date_2016_07_20 30 None = None.
Proof.
  split; [| split; [| repeat split; reflexivity]].
  - intros templates teacher date period wh Hp Hfind Hwin.
    unfold find_free_slots, for_date. rewrite Hfind.
    unfold relevant_entries. simpl filter at 2.
    rewrite filter_all_true by (intros; apply slot_is_free_nil).
    rewrite all_slots_grid by exact Hp.
    set (s := combine_date date (wh_start wh)).
    set (e := combine_date date (wh_end wh)).
    assert (Hlen : e - s = wh_end wh - wh_start wh)
      by (unfold s, e, combine_date; lia).
    rewrite Hlen.
    pose proof (ceil_div_bounds (wh_end wh - wh_start wh) period Hp) as Hb.
    set (n := ceil_div (wh_end wh - wh_start wh) period) in *.
    assert (Hn : 0 < n) by nia.
    eexists. split; [reflexivity|].
    rewrite length_map, length_seq.
    assert (Hnth : forall i, (i < Z.to_nat n)%nat ->
              nth i (map (fun i => s + Z.of_nat i * period) (seq 0 (Z.to_nat n))) 0
              = s + Z.of_nat i * period)
      by (intros i Hi; now rewrite nth_map_seq).
    repeat split.
    + lia.
    + lia.
    + lia.
    + rewrite Hnth by lia. lia.
    + intros i Hi. rewrite !Hnth by lia. lia.
    + exact Hnth.
    + intros t Ht. apply in_map_iff in Ht. destruct Ht as [i [Hti Hi]].
      apply in_seq in Hi. subst t. nia.
  - intros templates entries teacher date period Hfind.
    unfold find_free_slots, for_date. rewrite Hfind. split; [reflexivity | discriminate].
Qed.

Lemma overlaps_iff (a_start a_end b_start b_end : Z) :
  overlaps a_start a_end b_start b_end = true <-> a_start < b_end /\ b_start < a_end.
Proof.
  unfold overlaps. rewrite andb_true_iff, !Z.ltb_lt. reflexivity.
Qed.

Lemma slot_is_free_false (busy : list Entry) (period slot : Z) :
  slot_is_free lesson_duration busy period None slot = false
  <-> exists e, In e busy
                /\ overlaps slot (slot + period) (entry_start e) (entry_end e) = true.
Proof.
  unfold slot_is_free. simpl slot_end. split.
  - intros Hfalse.
    induction busy as [|e busy IH]; simpl in Hfalse; [discriminate|].
    apply andb_false_iff in Hfalse. destruct Hfalse as [Hhere | Hlater].
    + exists e. split; [now left|]. now apply negb_false_iff in Hhere.
    + destruct (IH Hlater) as [e' [Hin Hov]]. exists e'. split; [now right | exact Hov].
  - intros [e [Hin Hov]].
    destruct (forallb _ busy) eqn:Hall; [|reflexivity].
    rewrite forallb_forall in Hall. specialize (Hall e Hin).
    rewrite Hov in Hall. discriminate.
Qed.

(** C9: without a lesson-type filter a generated slot [t] is dropped exactly
    when some entry of the teacher on that date overlaps [[t, t + g)], where
    overlap means [a.start < b.end] and [b.start < a.end]; an entry that only
    touches a slot boundary does not overlap it and one that covers part of
    the slot does; on the 13:00-15:00 Monday with 30-minute slots the entry
    14:00-14:30 leaves 3 of the 4 slots and the entry 14:10-14:40 leaves 2. *)
Theorem slot_discarded_iff_overlap :
  (forall templates entries teacher date period window_start window_end slots slot,
      for_date templates teacher date = Some (window_start, window_end) ->
      find_free_slots lesson_duration templates entries teacher date period None
      = Some slots ->
      In slot (all_slots window_start window_end period) ->
      (~ In slot slots
       <-> exists e, In e entries /\ entry_teacher e = teacher /\ on_date date e = true
                     /\ entry_start e < slot + period /\ slot < entry_end e))
  /\ (forall slot period e_start e_end,
         overlaps slot (slot + period) e_start e_end = true
         <-> slot < e_end /\ e_start < slot + period)
  /\ (forall slot period e_end, overlaps slot (slot + period) (slot + period) e_end = false)
  /\ (forall slot period e_start, overlaps slot (slot + period) e_start slot = false)
  /\ (forall slot period e_start e_end,
         slot < e_start < slot + period -> e_start < e_end ->
         overlaps slot (slot + period) e_start e_end = true)
  /\ option_map (map time_of)
       (find_free_slots lesson_duration test_templates [] 1 date_2016_07_18 30 None)
     = Some [hm 13 0; hm 13 30; hm 14 0; hm 14 30]
  /\ option_map (map time_of)
       (find_free_slots lesson_duration test_templates
          [test_entry (hm 14 0) (hm 14 30)] 1 date_2016_07_18 30 None)
     = Some [hm 13 0; hm 13 30; hm 14 30]
  /\ option_map (map time_of)
       (find_free_slots lesson_duration test_templates
          [test_entry (hm 14 10) (hm 14 40)] 1 date_2016_07_18 30 None)
     = Some [hm 13 0; hm 13 30].
Proof.
  split; [| split; [| split; [| split; [| split; [| repeat split; reflexivity]]]]].
  - intros templates entries teacher date period window_start window_end slots slot
           Hwin Hfind Hgrid.
    unfold find_free_slots in Hfind. rewrite Hwin in Hfind.
    injection Hfind as Hslots. subst slots.
    rewrite filter_In.
    split.
    + intros Hout.
      destruct (slot_is_free lesson_duration
                  (relevant_entries entries teacher date None) period None slot) eqn:Hfree.
      * exfalso. apply Hout. now split.
      * apply slot_is_free_false in Hfree. destruct Hfree as [e [Hin Hov]].
        unfold relevant_entries in Hin. apply filter_In in Hin.
        destruct Hin as [Hin Hrel].
        rewrite !andb_true_iff in Hrel. destruct Hrel as [[Ht Hd] _].
        apply Nat.eqb_eq in Ht. apply overlaps_iff in Hov.
        exists e. repeat split; try assumption; lia.
    + intros [e [Hin [Ht [Hd [H1 H2]]]]] [_ Hfree].
      assert (Hbusy : slot_is_free lesson_duration
                        (relevant_entries entries teacher date None) period None slot = false).
      { apply slot_is_free_false. exists e. split.
        - unfold relevant_entries. apply filter_In. split; [exact Hin|].
          rewrite Hd. apply Nat.eqb_eq in Ht. rewrite Ht. reflexivity.
        - apply overlaps_iff. lia. }
      congruence.
  - intros. rewrite overlaps_iff. reflexivity.
  - intros. unfold overlaps. rewrite Z.ltb_irrefl. apply andb_false_r.
  - intros. unfold overlaps. rewrite Z.ltb_irrefl. reflexivity.
  - intros slot period e_start e_end Hin Hpos. apply overlaps_iff. lia.
Qed.

End FreeSlotFacts.

(** ** Tables *)

Section TableFacts.
Import Django.
Context {R : Type}.
Implicit Types (t : table R) (k : nat) (r : R).

Lemma keys_update k r t : keys (update k r t) = keys t.
Proof.
  unfold keys, update. rewrite map_map. apply map_ext_in.
  intros [k' r'] _. unfold has_key. simpl.
  destruct (k' =? k) eqn:Hk; [apply Nat.eqb_eq in Hk; now subst | reflexivity].
Qed.

Lemma keys_insert k r t : keys (insert k r t) = keys t ++ [k].
Proof. unfold keys, insert. now rewrite map_app. Qed.

Lemma exists_pk_In k t : exists_pk k t = true <-> In k (keys t).
Proof.
  unfold exists_pk, keys. rewrite existsb_exists, in_map_iff. unfold has_key.
  split; intros [kr [H1 H2]]; exists kr.
  - apply Nat.eqb_eq in H2. now split.
  - split; [exact H2 | now apply Nat.eqb_eq].
Qed.

Lemma get_In k r t : get k t = Some r -> In (k, r) t.
Proof.
  unfold get. destruct (find (has_key k) t) as [[k' r']|] eqn:Hfind; [|discriminate].
  simpl. intros [= ->]. apply find_some in Hfind. destruct Hfind as [Hin Hk].
  unfold has_key in Hk. simpl in Hk. apply Nat.eqb_eq in Hk. now subst.
Qed.

Lemma get_exists k t : exists_pk k t = true -> exists r, get k t = Some r.
Proof.
  unfold exists_pk, get, has_key. induction t as [|[k' r'] t IH]; simpl; [discriminate|].
  destruct (k' =? k); simpl.
  - intros _. now exists r'.
  - exact IH.
Qed.

Lemma get_some_exists k r t : get k t = Some r -> exists_pk k t = true.
Proof.
  intros Hget. apply exists_pk_In. apply get_In in Hget.
  unfold keys. apply in_map_iff. now exists (k, r).
Qed.

Lemma get_update_same k r t : exists_pk k t = true -> get k (update k r t) = Some r.
Proof.
  unfold exists_pk, get, update, has_key.
  induction t as [|[k' r'] t IH]; simpl; [discriminate|].
  destruct (k' =? k) eqn:Hk; simpl.
  - intros _. now rewrite Nat.eqb_refl.
  - rewrite Hk. exact IH.
Qed.

Lemma get_insert_fresh k r t : exists_pk k t = false -> get k (insert k r t) = Some r.
Proof.
  unfold exists_pk, get, insert, has_key. induction t as [|[k' r'] t IH]; simpl.
  - intros _. now rewrite Nat.eqb_refl.
  - destruct (k' =? k); simpl; [discriminate | exact IH].
Qed.

Lemma next_pk_fresh t : exists_pk (next_pk t) t = false.
Proof.
  destruct (exists_pk (next_pk t) t) eqn:Hex; [|reflexivity].
  apply exists_pk_In in Hex. unfold next_pk in Hex.
  pose proof (list_max_le (keys t) (list_max (keys t))) as [Hall _].
  specialize (Hall (Nat.le_refl _)). rewrite Forall_forall in Hall.
  specialize (Hall _ Hex). lia.
Qed.

Lemma next_pk_insert r t : next_pk (insert (next_pk t) r t) = S (next_pk t).
Proof.
  unfold next_pk at 1. rewrite keys_insert, list_max_app. simpl.
  unfold next_pk. lia.
Qed.

(** After [Model.save] the row is stored under the key the instance holds. *)
Lemma save_base_get pk r t :
  get (fst (save_base pk r t)) (snd (save_base pk r t)) = Some r.
Proof.
  unfold save_base. destruct pk as [k|].
  - destruct (exists_pk k t) eqn:Hex; simpl.
    + now apply get_update_same.
    + now apply get_insert_fresh.
  - simpl. apply get_insert_fresh, next_pk_fresh.
Qed.

Lemma save_base_key pk r t : fst (save_base pk r t) = key_for pk t.
Proof.
  unfold save_base. destruct pk as [k|]; [destruct (exists_pk k t)|]; reflexivity.
Qed.

(** [Model.save] of an instance whose row exists keeps the keys of the table. *)
Lemma save_base_existing k r t :
  exists_pk k t = true -> save_base (Some k) r t = (k, update k r t).
Proof. intros Hex. unfold save_base. now rewrite Hex. Qed.

(** No key is lost by a save. *)
Lemma save_base_keeps_keys pk r t k :
  In k (keys t) -> In k (keys (snd (save_base pk r t))).
Proof.
  intros Hin. unfold save_base. destruct pk as [k'|].
  - destruct (exists_pk k' t); simpl.
    + now rewrite keys_update.
    + rewrite keys_insert. apply in_or_app. now left.
  - simpl. rewrite keys_insert. apply in_or_app. now left.
Qed.

End TableFacts.

(** ** Saving a bought class *)

Section ClassSaveFacts.
Import Django Timeline Hub.
Implicit Types (w : World BoughtClass) (e : Entry) (st : Store).

Lemma Entry_save_fst e st :
  fst (Entry_save e st) = set_entry_pk (key_for (entry_pk e) (entries st)) e.
Proof. reflexivity. Qed.

(** A saved entry is stored under the key the object holds afterwards. *)
Lemma Entry_save_get e st (k : nat) :
  k = key_for (entry_pk e) (entries st) ->
  get k (entries (snd (Entry_save e st))) = Some (set_entry_pk k e).
Proof.
  intros ->. unfold Entry_save. cbn [snd entries with_entries].
  rewrite <- (save_base_key (entry_pk e)
                (set_entry_pk (key_for (entry_pk e) (entries st)) e) (entries st)) at 1.
  apply save_base_get.
Qed.

(** Saving an entry deletes no entry row. *)
Lemma Entry_save_keeps_keys e st (k : nat) :
  In k (keys (entries st)) -> In k (keys (entries (snd (Entry_save e st)))).
Proof. intros Hin. unfold Entry_save. simpl. now apply save_base_keeps_keys. Qed.

Lemma Entry_save_again e st st' :
  fst (Entry_save (fst (Entry_save e st)) st') = fst (Entry_save e st).
Proof. unfold Entry_save. simpl. destruct e; reflexivity. Qed.

Lemma Class_save_cached_saved w e :
  timeline_entry_cache (self w) = Some e ->
  pk_truthy (entry_pk e) = true ->
  let row := set_is_scheduled true (class_row (self w)) in
  let kt := save_base (class_pk (self w)) row (classes (db w)) in
  let es := Entry_save e (with_classes (snd kt) (db w)) in
  Class_save w
  = (inr tt,
     mkWorld (mkBoughtClass (Some (fst kt)) row (Some (fst es)) (class_request (self w)))
             (snd es)).
Proof.
  intros Hc Ht. destruct w as [c st]. simpl in *.
  unfold Class_save, bind, get_timeline_entry. simpl. rewrite Hc, Ht. simpl.
  unfold Class_super_save. simpl.
  destruct (save_base _ _ _) as [k t]. simpl. rewrite Hc. reflexivity.
Qed.

Lemma Class_save_cached_new w e :
  timeline_entry_cache (self w) = Some e ->
  pk_truthy (entry_pk e) = false ->
  let es1 := Entry_save e (db w) in
  let row := set_is_scheduled true
               (set_timeline_entry_id (entry_pk (fst es1)) (class_row (self w))) in
  let kt := save_base (class_pk (self w)) row (classes (db w)) in
  let es2 := Entry_save (fst es1) (with_classes (snd kt) (snd es1)) in
  Class_save w
  = (inr tt,
     mkWorld (mkBoughtClass (Some (fst kt)) row (Some (fst es2)) (class_request (self w)))
             (snd es2)).
Proof.
  intros Hc Ht. destruct w as [c st]. simpl in *.
  unfold Class_save, bind, get_timeline_entry. simpl. rewrite Hc, Ht. simpl.
  unfold Class_super_save. simpl.
  destruct (save_base _ _ _) as [k t]. reflexivity.
Qed.

Lemma Class_save_detached w :
  timeline_entry_cache (self w) = None ->
  timeline_entry_id (class_row (self w)) = None ->
  let row := set_is_scheduled false (class_row (self w)) in
  let kt := save_base (class_pk (self w)) row (classes (db w)) in
  Class_save w
  = (inr tt,
     mkWorld (mkBoughtClass (Some (fst kt)) row None (class_request (self w)))
             (with_classes (snd kt) (db w))).
Proof.
  intros Hc Hid. destruct w as [c st]. simpl in *.
  unfold Class_save, bind, get_timeline_entry. simpl. rewrite Hc, Hid. simpl.
  unfold Class_super_save. simpl.
  destruct (save_base _ _ _) as [k t]. simpl. rewrite Hc, Hid.
  unfold ret, with_class_pk, with_row. simpl. now rewrite Hc.
Qed.

Lemma Class_save_fetch w (k : nat) e :
  timeline_entry_cache (self w) = None ->
  timeline_entry_id (class_row (self w)) = Some k ->
  get k (entries (db w)) = Some e ->
  Class_save w
  = Class_save (mkWorld (with_cache (Some (set_entry_pk k e)) (self w)) (db w)).
Proof.
  intros Hc Hid Hget. destruct w as [c st]. simpl in *.
  unfold Class_save, bind at 1 5. unfold get_timeline_entry at 1 3. simpl.
  rewrite Hc, Hid, Hget. reflexivity.
Qed.

Lemma Class_save_dangling w (k : nat) :
  timeline_entry_cache (self w) = None ->
  timeline_entry_id (class_row (self w)) = Some k ->
  get k (entries (db w)) = None ->
  Class_save w = (inl DoesNotExist, w).
Proof.
  intros Hc Hid Hget. destruct w as [c st]. simpl in *.
  unfold Class_save, bind, get_timeline_entry. simpl.
  now rewrite Hc, Hid, Hget.
Qed.

(** What [Class.save] leaves behind for a class that holds an entry. *)
Lemma Class_save_with_entry w e :
  timeline_entry_cache (self w) = Some e ->
  timeline_entry_id (class_row (self w)) = entry_pk e ->
  let k := key_for (entry_pk e) (entries (db w)) in
  exists w',
    Class_save w = (inr tt, w')
    /\ timeline_entry_cache (self w') = Some (set_entry_pk k e)
    /\ timeline_entry_id (class_row (self w')) = Some k
    /\ is_scheduled (class_row (self w')) = true
    /\ get k (entries (db w')) = Some (set_entry_pk k e)
    /\ (exists kc, class_pk (self w') = Some kc
                   /\ get kc (classes (db w')) = Some (class_row (self w')))
    /\ (forall k', In k' (keys (entries (db w))) -> In k' (keys (entries (db w')))).
Proof.
  intros Hc Hid k.
  destruct (pk_truthy (entry_pk e)) eqn:Ht.
  - rewrite (Class_save_cached_saved w e Hc Ht).
    eexists. split; [reflexivity|]. cbn [self db class_row class_pk timeline_entry_cache].
    assert (Hk : entry_pk e = Some k)
      by (subst k; destruct (entry_pk e); [reflexivity | discriminate]).
    split; [| split; [| split; [| split; [| split]]]].
    + reflexivity.
    + cbn. congruence.
    + reflexivity.
    + apply Entry_save_get. cbn [entries with_classes]. reflexivity.
    + eexists. split; [reflexivity|]. apply save_base_get.
    + intros k' Hin. now apply Entry_save_keeps_keys.
  - rewrite (Class_save_cached_new w e Hc Ht).
    eexists. split; [reflexivity|]. cbn [self db class_row class_pk timeline_entry_cache].
    split; [| split; [| split; [| split; [| split]]]].
    + rewrite Entry_save_again. reflexivity.
    + reflexivity.
    + reflexivity.
    + replace (set_entry_pk k e) with (set_entry_pk k (fst (Entry_save e (db w))))
        by (destruct e; reflexivity).
      apply Entry_save_get. reflexivity.
    + eexists. split; [reflexivity|]. apply save_base_get.
    + intros k' Hin. apply Entry_save_keeps_keys. cbn [entries with_classes].
      now apply Entry_save_keeps_keys.
Qed.

(** Reading [self.timeline_entry] changes at most the held object. *)
Lemma get_timeline_entry_frame w :
  db (snd (get_timeline_entry w)) = db w
  /\ class_pk (self (snd (get_timeline_entry w))) = class_pk (self w)
  /\ class_row (self (snd (get_timeline_entry w))) = class_row (self w)
  /\ class_request (self (snd (get_timeline_entry w))) = class_request (self w).
Proof.
  unfold get_timeline_entry.
  destruct (timeline_entry_cache (self w)); [now repeat split|].
  destruct (timeline_entry_id (class_row (self w))) as [k|]; [|now repeat split].
  destruct (get k (entries (db w))); now repeat split.
Qed.

Lemma get_timeline_entry_raises w (exn : Exn) :
  fst (get_timeline_entry w) = inl exn ->
  exn = DoesNotExist /\ snd (get_timeline_entry w) = w.
Proof.
  unfold get_timeline_entry.
  destruct (timeline_entry_cache (self w)); [discriminate|].
  destruct (timeline_entry_id (class_row (self w))) as [k|]; [|discriminate].
  destruct (get k (entries (db w))); [discriminate|].
  simpl. intros [= <-]. now split.
Qed.

Lemma get_timeline_entry_none w :
  fst (get_timeline_entry w) = inr None -> snd (get_timeline_entry w) = w.
Proof.
  unfold get_timeline_entry.
  destruct (timeline_entry_cache (self w)); [discriminate|].
  destruct (timeline_entry_id (class_row (self w))) as [k|]; [|reflexivity].
  destruct (get k (entries (db w))); discriminate.
Qed.

Lemma same_key_eq (a b : option nat) : same_key a b = true <-> a = b.
Proof.
  destruct a as [a|], b as [b|]; cbn; try (split; [discriminate | congruence]).
  - rewrite Nat.eqb_eq. split; congruence.
  - tauto.
Qed.

Lemma same_key_refl (a : option nat) : same_key a a = true.
Proof. now apply same_key_eq. Qed.

(** The run of [unschedule] when the entry column of the class holds the
    key of the attached entry. *)
Lemma unschedule_run w entry :
  fst (get_timeline_entry w) = inr (Some entry) ->
  timeline_entry_id (class_row (self w)) = entry_pk entry ->
  unschedule w
  = (inr tt,
     mkWorld (assign_timeline_entry None (self (snd (get_timeline_entry w))))
             (snd (Entry_save entry
                     (db (snd (classes_remove entry (snd (get_timeline_entry w)))))))).
Proof.
  intros Hget Hid. destruct (get_timeline_entry_frame w) as [_ [_ [Hrow _]]].
  unfold unschedule, bind.
  destruct (get_timeline_entry w) as [r w1]. cbn [fst snd] in *. subst r.
  unfold classes_remove. rewrite Hrow, Hid, same_key_refl. reflexivity.
Qed.

(** An entry held on the object while the entry column says otherwise is
    refused by [remove]: [unschedule] raises [DoesNotExist] before anything
    is changed. *)
Lemma unschedule_unrelated w entry :
  fst (get_timeline_entry w) = inr (Some entry) ->
  timeline_entry_id (class_row (self w)) <> entry_pk entry ->
  unschedule w = (inl DoesNotExist, w).
Proof.
  intros Hget Hid.
  assert (Hno : same_key (timeline_entry_id (class_row (self w))) (entry_pk entry) = false).
  { destruct (same_key _ _) eqn:Hsame; [|reflexivity].
    apply same_key_eq in Hsame. contradiction. }
  unfold unschedule, bind. unfold get_timeline_entry in *.
  destruct (timeline_entry_cache (self w)) as [e|] eqn:Hc.
  - cbn [fst] in Hget. injection Hget as ->. unfold classes_remove. now rewrite Hno.
  - destruct (timeline_entry_id (class_row (self w))) as [k|] eqn:Hcol;
      [|discriminate].
    destruct (get k (entries (db w))) as [e|]; [|discriminate].
    cbn [fst] in Hget. injection Hget as <-. cbn in Hid. congruence.
Qed.

(** A call of [unschedule] that returned found an entry whose key the
    entry column held. *)
Lemma unschedule_returned w w' :
  unschedule w = (inr tt, w') ->
  exists entry,
    fst (get_timeline_entry w) = inr (Some entry)
    /\ timeline_entry_id (class_row (self w)) = entry_pk entry.
Proof.
  intros Hrun.
  destruct (fst (get_timeline_entry w)) as [exn | [entry|]] eqn:Hget.
  - unfold unschedule, bind in Hrun.
    destruct (get_timeline_entry w) as [r w1]. cbn [fst] in Hget. subst r.
    discriminate.
  - exists entry. split; [reflexivity|].
    destruct (same_key (timeline_entry_id (class_row (self w))) (entry_pk entry))
      eqn:Hsame; [now apply same_key_eq|].
    rewrite (unschedule_unrelated w entry Hget) in Hrun; [discriminate|].
    intros Heq. apply same_key_eq in Heq. congruence.
  - unfold unschedule, bind in Hrun.
    destruct (get_timeline_entry w) as [r w1]. cbn [fst] in Hget. subst r.
    discriminate.
Qed.

Lemma classes_remove_keys entry w :
  keys (classes (db (snd (classes_remove entry w)))) = keys (classes (db w)).
Proof.
  unfold classes_remove. destruct (same_key _ _); [|reflexivity].
  unfold clear_entry_column, keys. cbn. rewrite map_map.
  apply map_ext. intros kr.
  destruct (_ && _); reflexivity.
Qed.

Lemma classes_remove_other entry w (kr : nat * ClassRow) :
  In kr (classes (db w)) ->
  class_pk (self w) <> Some (fst kr) ->
  In kr (classes (db (snd (classes_remove entry w)))).
Proof.
  intros Hin Hne. unfold classes_remove. destruct (same_key _ _); [|exact Hin].
  unfold clear_entry_column. cbn.
  apply in_map_iff. exists kr. split; [|exact Hin].
  destruct (class_pk (self w)) as [k|]; [|reflexivity].
  unfold has_key. destruct (fst kr =? k) eqn:Hk; [|reflexivity].
  apply Nat.eqb_eq in Hk. congruence.
Qed.

Lemma classes_remove_own entry w (k : nat) (r : ClassRow) :
  timeline_entry_id (class_row (self w)) = entry_pk entry ->
  class_pk (self w) = Some k ->
  In (k, r) (classes (db w)) ->
  timeline_entry_id r = entry_pk entry ->
  In (k, set_timeline_entry_id None r) (classes (db (snd (classes_remove entry w)))).
Proof.
  intros Hcol Hpk Hin Hid. unfold classes_remove. rewrite Hcol, same_key_refl.
  unfold clear_entry_column. cbn.
  apply in_map_iff. exists (k, r). split; [|exact Hin].
  rewrite Hpk. unfold has_key. cbn [fst snd]. rewrite Nat.eqb_refl, Hid.
  now rewrite same_key_refl.
Qed.

(** [remove] rewrites the foreign key column only: every stored row keeps
    its [is_scheduled]. *)
Lemma classes_remove_flags entry w (kr' : nat * ClassRow) :
  In kr' (classes (db (snd (classes_remove entry w)))) ->
  exists kr, In kr (classes (db w)) /\ fst kr' = fst kr
             /\ is_scheduled (snd kr') = is_scheduled (snd kr).
Proof.
  unfold classes_remove. destruct (same_key _ _).
  - unfold clear_entry_column. cbn. intros Hin.
    apply in_map_iff in Hin. destruct Hin as [kr [Heq Hin]].
    exists kr. split; [exact Hin|].
    destruct (_ && _); subst kr'; now split.
  - cbn. intros Hin. exists kr'. now repeat split.
Qed.

(** C4: [Class.save] either fails to fetch the entry the column points at,
    changing nothing, or returns with [is_scheduled] equal to whether an
    entry is attached, in the object and in the stored row alike; the
    attachment itself is the one the caller left on the object. *)
Theorem Class_save_recomputes_is_scheduled w :
  match fst (get_timeline_entry w) with
  | inl exn => Class_save w = (inl exn, w)
  | inr te =>
      exists w',
        Class_save w = (inr tt, w')
        /\ fst (get_timeline_entry w') = inr (timeline_entry_cache (self w'))
        /\ has_entry (timeline_entry_cache (self w')) = has_entry te
        /\ is_scheduled (class_row (self w'))
           = has_entry (timeline_entry_cache (self w'))
        /\ exists k, class_pk (self w') = Some k
                     /\ get k (classes (db w')) = Some (class_row (self w'))
  end.
Proof.
  assert (Hcached : forall w0 e0,
             timeline_entry_cache (self w0) = Some e0 ->
             exists w', Class_save w0 = (inr tt, w')
               /\ fst (get_timeline_entry w') = inr (timeline_entry_cache (self w'))
               /\ has_entry (timeline_entry_cache (self w')) = true
               /\ is_scheduled (class_row (self w')) = true
               /\ exists k, class_pk (self w') = Some k
                            /\ get k (classes (db w')) = Some (class_row (self w'))).
  { intros w0 e0 Hc.
    destruct (pk_truthy (entry_pk e0)) eqn:Ht.
    - rewrite (Class_save_cached_saved w0 e0 Hc Ht).
      eexists. split; [reflexivity|]. simpl.
      repeat split. eexists. split; [reflexivity|]. apply save_base_get.
    - rewrite (Class_save_cached_new w0 e0 Hc Ht).
      eexists. split; [reflexivity|]. simpl.
      repeat split. eexists. split; [reflexivity|]. apply save_base_get. }
  unfold get_timeline_entry at 1.
  destruct (timeline_entry_cache (self w)) as [e|] eqn:Hc.
  - simpl. destruct (Hcached w e Hc) as [w' [Hs [Hg [Ha [Hi Hk]]]]].
    exists w'. rewrite Ha, Hi. auto.
  - destruct (timeline_entry_id (class_row (self w))) as [k|] eqn:Hid.
    + destruct (get k (entries (db w))) as [e|] eqn:Hget; simpl.
      * rewrite (Class_save_fetch w k e Hc Hid Hget).
        destruct (Hcached (mkWorld (with_cache (Some (set_entry_pk k e)) (self w)) (db w))
                          (set_entry_pk k e) eq_refl)
          as [w' [Hs [Hg [Ha [Hi Hk]]]]].
        exists w'. rewrite Ha, Hi. auto.
      * now apply Class_save_dangling with (k := k).
    + simpl. rewrite (Class_save_detached w Hc Hid).
      eexists. split; [reflexivity|]. simpl.
      unfold get_timeline_entry. simpl. rewrite Hid.
      repeat split. eexists. split; [reflexivity|]. apply save_base_get.
Qed.

End ClassSaveFacts.

(** ** The cascade of a subscription's flag *)

Section CascadeFacts.
Import Django Timeline Hub.
Implicit Types (st : Store) (r : ClassRow) (k : nat).

Lemma Entry_save_existing_keys (e : Entry) st k :
  entry_pk e = Some k ->
  In k (keys (entries st)) ->
  keys (entries (snd (Entry_save e st))) = keys (entries st).
Proof.
  intros Hpk Hin. unfold Entry_save. cbn [snd entries with_entries].
  rewrite Hpk. apply exists_pk_In in Hin.
  rewrite save_base_existing by exact Hin. apply keys_update.
Qed.

Lemma cascaded_with_id a r k :
  timeline_entry_id r = Some k ->
  set_is_scheduled true (set_timeline_entry_id (Some k) (set_active a r)) = cascaded a r
  /\ set_is_scheduled true (set_active a r) = cascaded a r.
Proof.
  intros Hid. unfold cascaded. rewrite Hid. destruct r. simpl in *. now subst.
Qed.

(** One turn of the loop in [__update_classes], for a stored row whose entry,
    if any, exists. *)
Lemma cascade_step st k r a :
  In k (keys (classes st)) ->
  (forall eid, timeline_entry_id r = Some eid -> In eid (keys (entries st))) ->
  exists c' st',
    Class_save (mkWorld (with_row (set_active a) (load_class (k, r))) st)
    = (inr tt, mkWorld c' st')
    /\ classes st' = update k (cascaded a r) (classes st)
    /\ keys (entries st') = keys (entries st)
    /\ subscriptions st' = subscriptions st.
Proof.
  intros Hk Hfk. apply exists_pk_In in Hk.
  set (w0 := mkWorld (with_row (set_active a) (load_class (k, r))) st).
  destruct (timeline_entry_id r) as [eid|] eqn:Hid.
  - specialize (Hfk eid eq_refl).
    destruct (get_exists eid (entries st) (proj2 (exists_pk_In _ _) Hfk)) as [e Hget].
    rewrite (Class_save_fetch w0 eid e eq_refl Hid Hget).
    destruct (cascaded_with_id a r eid Hid) as [Hrow0 Hrow1].
    set (w1 := mkWorld (with_cache (Some (set_entry_pk eid e)) (self w0)) (db w0)).
    destruct (pk_truthy (entry_pk (set_entry_pk eid e))) eqn:Ht.
    + rewrite (Class_save_cached_saved w1 (set_entry_pk eid e) eq_refl Ht).
      cbn [w1 w0 self db class_row class_pk with_cache with_row load_class fst snd].
      do 2 eexists. split; [reflexivity|].
      rewrite save_base_existing by exact Hk. cbn [snd].
      split; [cbn; now rewrite Hrow1|].
      split; [|reflexivity].
      now rewrite (Entry_save_existing_keys (set_entry_pk eid e) _ eid eq_refl).
    + rewrite (Class_save_cached_new w1 (set_entry_pk eid e) eq_refl Ht).
      cbn [w1 w0 self db class_row class_pk with_cache with_row load_class fst snd].
      do 2 eexists. split; [reflexivity|].
      rewrite save_base_existing by exact Hk. cbn [snd].
      split; [cbn; now rewrite Hrow0|].
      split; [|reflexivity].
      assert (Hfirst : keys (entries (snd (Entry_save (set_entry_pk eid e) st)))
                       = keys (entries st))
        by now apply (Entry_save_existing_keys (set_entry_pk eid e) st eid).
      rewrite (Entry_save_existing_keys
                 (fst (Entry_save (set_entry_pk eid e) st)) _ eid eq_refl).
      * exact Hfirst.
      * cbn [entries with_classes]. now rewrite Hfirst.
  - rewrite (Class_save_detached w0 eq_refl Hid).
    cbn [w0 self db class_row class_pk with_cache with_row load_class fst snd].
    do 2 eexists. split; [reflexivity|].
    rewrite save_base_existing by exact Hk.
    unfold cascaded. rewrite Hid. now repeat split.
Qed.

(** Saving a class whose row exists neither adds nor drops a class row,
    whether the save returns or raises. *)
Lemma Class_save_keeps_class_keys (w : World BoughtClass) k :
  class_pk (self w) = Some k ->
  In k (keys (classes (db w))) ->
  keys (classes (db (snd (Class_save w)))) = keys (classes (db w)).
Proof.
  intros Hpk Hin. apply exists_pk_In in Hin.
  assert (Hcached : forall w0 e0,
             class_pk (self w0) = Some k ->
             exists_pk k (classes (db w0)) = true ->
             timeline_entry_cache (self w0) = Some e0 ->
             keys (classes (db (snd (Class_save w0)))) = keys (classes (db w0))).
  { intros w0 e0 Hpk0 Hin0 Hc. destruct (pk_truthy (entry_pk e0)) eqn:Ht.
    - rewrite (Class_save_cached_saved w0 e0 Hc Ht). cbn [snd db].
      rewrite Hpk0. cbn [classes Entry_save snd with_entries with_classes].
      rewrite save_base_existing by exact Hin0. apply keys_update.
    - rewrite (Class_save_cached_new w0 e0 Hc Ht). cbn [snd db].
      rewrite Hpk0. cbn [classes Entry_save snd with_entries with_classes].
      rewrite save_base_existing by exact Hin0. apply keys_update. }
  destruct (timeline_entry_cache (self w)) as [e|] eqn:Hc.
  - now apply (Hcached w e).
  - destruct (timeline_entry_id (class_row (self w))) as [eid|] eqn:Hid.
    + destruct (get eid (entries (db w))) as [e|] eqn:Hget.
      * rewrite (Class_save_fetch w eid e Hc Hid Hget).
        exact (Hcached (mkWorld (with_cache (Some (set_entry_pk eid e)) (self w)) (db w))
                       (set_entry_pk eid e) Hpk Hin eq_refl).
      * now rewrite (Class_save_dangling w eid Hc Hid Hget).
    + rewrite (Class_save_detached w Hc Hid). cbn [snd db classes with_classes].
      rewrite Hpk, save_base_existing by exact Hin. apply keys_update.
Qed.

Section Loop.
Variable s : Subscription.
Variable a : Z.

Lemma cascade_loop_keys (rows : list (nat * ClassRow)) :
  forall st,
    (forall kr, In kr rows -> In (fst kr) (keys (classes st))) ->
    keys (classes (db (snd (for_each rows (cascade_body a) (mkWorld s st)))))
    = keys (classes st).
Proof.
  induction rows as [|kr rows IH]; intros st Hrows; [reflexivity|].
  cbn [for_each]. unfold bind.
  pose proof (Class_save_keeps_class_keys
                (mkWorld (with_row (set_active a) (load_class kr)) st) (fst kr)
                eq_refl (Hrows kr (or_introl eq_refl))) as Hstep.
  unfold cascade_body at 1, call_on. cbn [db self] in *.
  destruct (Class_save _) as [[exn|[]] [c' st']]; cbn [db snd] in *.
  - exact Hstep.
  - rewrite IH; [exact Hstep|].
    intros kr' Hin. rewrite Hstep. apply Hrows. now right.
Qed.

Lemma cascade_loop (rows : list (nat * ClassRow)) :
  forall st,
    (forall kr, In kr rows -> In (fst kr) (keys (classes st))) ->
    (forall kr eid, In kr rows -> timeline_entry_id (snd kr) = Some eid ->
                    In eid (keys (entries st))) ->
    exists st',
      for_each rows (cascade_body a) (mkWorld s st) = (inr tt, mkWorld s st')
      /\ classes st'
         = fold_left (fun t kr => update (fst kr) (cascaded a (snd kr)) t) rows (classes st)
      /\ keys (entries st') = keys (entries st)
      /\ subscriptions st' = subscriptions st.
Proof.
  induction rows as [|[k r] rows IH]; intros st Hrows Hfk.
  - exists st. now repeat split.
  - destruct (cascade_step st k r a (Hrows _ (or_introl eq_refl))
                (fun eid => Hfk (k, r) eid (or_introl eq_refl)))
      as [c' [st1 [Hrun [Hcl [Hen Hsub]]]]].
    destruct (IH st1) as [st' [Hloop [Hcl' [Hen' Hsub']]]].
    + intros kr Hin. rewrite Hcl, keys_update. apply Hrows. now right.
    + intros kr eid Hin Hid. rewrite Hen. apply (Hfk kr eid); [now right | exact Hid].
    + exists st'. cbn [for_each]. unfold bind, cascade_body at 1, call_on.
      cbn [db self]. rewrite Hrun. cbn [db self].
      split; [exact Hloop|]. cbn [fold_left fst snd].
      rewrite Hcl', Hcl, Hen', Hen, Hsub', Hsub. now repeat split.
Qed.

End Loop.

Section FoldUpdate.
Context {R : Type}.
Variable f : R -> R.
Implicit Types (t rows : table R).

Lemma find_absent k rows : ~ In k (keys rows) -> find (has_key k) rows = None.
Proof.
  intros Hout. destruct (find (has_key k) rows) as [[k' r']|] eqn:Hfind; [|reflexivity].
  apply find_some in Hfind. destruct Hfind as [Hin Hk]. unfold has_key in Hk.
  cbn in Hk. apply Nat.eqb_eq in Hk. subst k'. exfalso. apply Hout.
  unfold keys. apply in_map_iff. now exists (k, r').
Qed.

Lemma has_key_pair k k' (r : R) : has_key k (k', r) = (k' =? k).
Proof. reflexivity. Qed.

Lemma fold_update_rewrite rows :
  NoDup (keys rows) ->
  forall t,
    fold_left (fun acc kr => update (fst kr) (f (snd kr)) acc) rows t
    = map (rewrite_row f rows) t.
Proof.
  induction rows as [|[k r] rows IH]; intros Hnodup t.
  - cbn. now rewrite map_id.
  - cbn [keys map fst] in Hnodup. apply NoDup_cons_iff in Hnodup.
    destruct Hnodup as [Hout Hnodup].
    cbn [fold_left fst snd]. rewrite (IH Hnodup). unfold update. rewrite map_map.
    apply map_ext. intros [k' r']. unfold rewrite_row. cbn [find fst].
    rewrite !has_key_pair.
    destruct (Nat.eqb_spec k' k) as [-> | Hne].
    + rewrite Nat.eqb_refl. cbn [fst snd].
      now rewrite (find_absent k rows Hout).
    + cbn [fst]. destruct (Nat.eqb_spec k k'); [congruence | reflexivity].
Qed.

Lemma find_in_filter (p : nat * R -> bool) t (kr : nat * R) :
  NoDup (keys t) -> In kr t ->
  find (has_key (fst kr)) (filter p t) = if p kr then Some kr else None.
Proof.
  induction t as [|x t IH]; intros Hnodup Hin; [destruct Hin|].
  cbn [keys map] in Hnodup. apply NoDup_cons_iff in Hnodup.
  destruct Hnodup as [Hout Hnodup].
  assert (Hsub : forall k, In k (keys (filter p t)) -> In k (keys t)).
  { intros k Hk. unfold keys in *. apply in_map_iff in Hk.
    destruct Hk as [y [Hy Hiny]]. apply filter_In in Hiny.
    apply in_map_iff. exists y. tauto. }
  destruct Hin as [-> | Hin].
  - cbn [filter]. destruct (p kr).
    + cbn [find]. destruct kr as [k r]. now rewrite has_key_pair, Nat.eqb_refl.
    + apply find_absent. intros Hk. apply Hout. now apply Hsub.
  - assert (Hne : fst x <> fst kr).
    { intros Heq. apply Hout. rewrite Heq. unfold keys. now apply in_map. }
    cbn [filter]. destruct (p x).
    + cbn [find]. destruct x as [kx rx]. rewrite has_key_pair.
      apply Nat.eqb_neq in Hne. cbn [fst] in Hne. rewrite Hne.
      now apply IH.
    + now apply IH.
Qed.

Lemma fold_update_filter (p : nat * R -> bool) t :
  NoDup (keys t) ->
  fold_left (fun acc kr => update (fst kr) (f (snd kr)) acc) (filter p t) t
  = map (fun kr => if p kr then (fst kr, f (snd kr)) else kr) t.
Proof.
  intros Hnodup. rewrite fold_update_rewrite.
  - apply map_ext_in. intros kr Hin. unfold rewrite_row.
    rewrite (find_in_filter p t kr Hnodup Hin). now destruct (p kr).
  - unfold keys. clear f. induction t as [|x t IH]; [constructor|].
    cbn [keys map] in Hnodup. apply NoDup_cons_iff in Hnodup.
    destruct Hnodup as [Hout Hnodup]. cbn [filter]. destruct (p x).
    + cbn [map]. constructor; [|now apply IH].
      intros Hk. apply Hout. apply in_map_iff in Hk. destruct Hk as [y [Hy Hiny]].
      apply filter_In in Hiny. unfold keys. apply in_map_iff. exists y. tauto.
    + now apply IH.
Qed.

End FoldUpdate.

End CascadeFacts.

(** ** Scheduling a bought class *)

Section SchedulingFacts.
Import Django Timeline Hub.

Variable is_free : Store -> Entry -> bool.
Variable is_fitting_working_hours : Store -> Entry -> bool.

Local Abbreviation can_be_scheduled :=
  (Hub.can_be_scheduled is_free is_fitting_working_hours).
Local Abbreviation assign_entry :=
  (Hub.assign_entry is_free is_fitting_working_hours).

Lemma can_be_scheduled_eq (entry : Entry) (w : World BoughtClass) :
  can_be_scheduled entry w
  = negb (is_scheduled (class_row (self w)))
    && is_free (db w) entry
    && (lesson_type (class_row (self w)) =? entry_lesson_type entry)
    && (allow_besides_working_hours entry || is_fitting_working_hours (db w) entry).
Proof.
  unfold Hub.can_be_scheduled.
  destruct (is_scheduled (class_row (self w))); [reflexivity|].
  destruct (is_free (db w) entry); [|reflexivity].
  destruct (lesson_type (class_row (self w)) =? entry_lesson_type entry); [|reflexivity].
  destruct (allow_besides_working_hours entry);
    destruct (is_fitting_working_hours (db w) entry); reflexivity.
Qed.

(** C6: [can_be_scheduled] is false for a class that is already scheduled,
    for an entry that is not free, for an entry of another lesson type, and
    for an entry that neither fits the working hours nor allows scheduling
    besides them; it is true when none of the four holds. *)
Theorem can_be_scheduled_cases (entry : Entry) (w : World BoughtClass) :
  (is_scheduled (class_row (self w)) = true -> can_be_scheduled entry w = false)
  /\ (is_free (db w) entry = false -> can_be_scheduled entry w = false)
  /\ (lesson_type (class_row (self w)) <> entry_lesson_type entry ->
      can_be_scheduled entry w = false)
  /\ (is_fitting_working_hours (db w) entry = false ->
      allow_besides_working_hours entry = false ->
      can_be_scheduled entry w = false)
  /\ (is_scheduled (class_row (self w)) = false ->
      is_free (db w) entry = true ->
      lesson_type (class_row (self w)) = entry_lesson_type entry ->
      is_fitting_working_hours (db w) entry = true
      \/ allow_besides_working_hours entry = true ->
      can_be_scheduled entry w = true).
Proof.
  rewrite can_be_scheduled_eq. repeat split.
  - intros ->. reflexivity.
  - intros ->. now rewrite andb_false_r.
  - intros Hne. apply Nat.eqb_neq in Hne. rewrite Hne.
    now rewrite andb_false_r.
  - intros -> ->. now rewrite andb_false_r.
  - intros -> -> Heq Hfit. apply Nat.eqb_eq in Heq. rewrite Heq. simpl.
    destruct Hfit as [-> | ->]; [apply orb_true_r | reflexivity].
Qed.

Lemma assign_entry_raises (entry : Entry) (w : World BoughtClass) :
  can_be_scheduled entry w = false ->
  assign_entry entry w = (inl CannotBeScheduled, w).
Proof.
  intros Hno. unfold Hub.assign_entry, bind, gets. now rewrite Hno.
Qed.

Lemma assign_entry_success (entry : Entry) (w : World BoughtClass) :
  can_be_scheduled entry w = true ->
  assign_entry entry w
  = (inr tt, mkWorld (assign_timeline_entry (Some entry) (self w)) (db w)).
Proof.
  intros Hok. unfold Hub.assign_entry, bind, gets. now rewrite Hok.
Qed.

(** C10: when [can_be_scheduled] is false, [assign_entry] raises
    [CannotBeScheduled] and leaves the class object, every field of it, and
    the database exactly as they were. *)
Theorem assign_entry_failure_atomic (entry : Entry) (w : World BoughtClass) :
  can_be_scheduled entry w = false ->
  assign_entry entry w = (inl CannotBeScheduled, w)
  /\ self (snd (assign_entry entry w)) = self w
  /\ db (snd (assign_entry entry w)) = db w.
Proof.
  intros Hno. rewrite (assign_entry_raises entry w Hno). now repeat split.
Qed.

(** C5 (amended): [assign_entry] raises [CannotBeScheduled] exactly when
    [can_be_scheduled] is false, in particular for a class whose
    [is_scheduled] is set; otherwise it only puts the entry on the object,
    leaving [is_scheduled] and the database as they were.  The next
    [Class.save] stores the entry, under a fresh key when it is new, before
    the class row, which then carries that key, and sets [is_scheduled]. *)
Theorem assign_entry_then_save (entry : Entry) (w : World BoughtClass) :
  (fst (assign_entry entry w) = inl CannotBeScheduled
   <-> can_be_scheduled entry w = false)
  /\ (is_scheduled (class_row (self w)) = true ->
      assign_entry entry w = (inl CannotBeScheduled, w))
  /\ (can_be_scheduled entry w = true ->
      assign_entry entry w
      = (inr tt, mkWorld (assign_timeline_entry (Some entry) (self w)) (db w))
      /\ is_scheduled (class_row (self (snd (assign_entry entry w))))
         = is_scheduled (class_row (self w))
      /\ let k := key_for (entry_pk entry) (entries (db w)) in
         exists w',
           Class_save (snd (assign_entry entry w)) = (inr tt, w')
           /\ timeline_entry_cache (self w') = Some (set_entry_pk k entry)
           /\ timeline_entry_id (class_row (self w')) = Some k
           /\ is_scheduled (class_row (self w')) = true
           /\ get k (entries (db w')) = Some (set_entry_pk k entry)
           /\ exists kc, class_pk (self w') = Some kc
                         /\ get kc (classes (db w')) = Some (class_row (self w'))).
Proof.
  split; [| split].
  - split.
    + intros Hfail. destruct (can_be_scheduled entry w) eqn:Hcan; [|reflexivity].
      rewrite (assign_entry_success entry w Hcan) in Hfail. discriminate.
    + intros Hno. now rewrite (assign_entry_raises entry w Hno).
  - intros Hs. apply assign_entry_raises.
    rewrite can_be_scheduled_eq, Hs. reflexivity.
  - intros Hcan. rewrite (assign_entry_success entry w Hcan).
    split; [reflexivity|]. split; [reflexivity|]. simpl.
    destruct (Class_save_with_entry
                (mkWorld (assign_timeline_entry (Some entry) (self w)) (db w))
                entry eq_refl eq_refl)
      as [w' [Hs [Hcache [Hid [Hflag [Hget [Hrow _]]]]]]].
    exists w'. simpl in *. auto 10.
Qed.

(** C7 (amended): [unschedule] raises [CannotBeUnscheduled] exactly when no
    entry is attached, and then changes nothing.  With an entry attached
    whose key the entry column of the class holds (as it does after
    [assign_entry] and [save]) it returns with the entry taken off the
    object and off the stored row of this class, the rows of every other
    class as they were, the entry itself stored and no entry row deleted;
    [is_scheduled] is left as it was, on the object and in every stored row,
    and it is the next [Class.save] that clears it.  With an entry attached
    whose key the column does not hold, [remove] refuses: [DoesNotExist] is
    raised and nothing changes; the same when the column points at no
    stored entry and reading [self.timeline_entry] fails.  So
    [assign_entry], [save], [unschedule], [save] ends with [is_scheduled]
    false, while it is still true right after [unschedule]. *)
Theorem unschedule_then_save (w : World BoughtClass) :
  (fst (unschedule w) = inl CannotBeUnscheduled
   <-> fst (get_timeline_entry w) = inr None)
  /\ (fst (get_timeline_entry w) = inr None ->
      unschedule w = (inl CannotBeUnscheduled, w))
  /\ (forall entry,
         fst (get_timeline_entry w) = inr (Some entry) ->
         timeline_entry_id (class_row (self w)) = entry_pk entry ->
         exists w',
           unschedule w = (inr tt, w')
           /\ fst (get_timeline_entry w') = inr None
           /\ class_pk (self w') = class_pk (self w)
           /\ is_scheduled (class_row (self w')) = is_scheduled (class_row (self w))
           /\ keys (classes (db w')) = keys (classes (db w))
           /\ (forall kr, In kr (classes (db w)) ->
                          class_pk (self w) <> Some (fst kr) ->
                          In kr (classes (db w')))
           /\ (forall k r, class_pk (self w) = Some k ->
                           In (k, r) (classes (db w)) ->
                           timeline_entry_id r = entry_pk entry ->
                           In (k, set_timeline_entry_id None r) (classes (db w')))
           /\ (forall kr', In kr' (classes (db w')) ->
                           exists kr, In kr (classes (db w)) /\ fst kr' = fst kr
                                      /\ is_scheduled (snd kr') = is_scheduled (snd kr))
           /\ get (key_for (entry_pk entry) (entries (db w))) (entries (db w'))
              = Some (set_entry_pk (key_for (entry_pk entry) (entries (db w))) entry)
           /\ (forall k, In k (keys (entries (db w))) -> In k (keys (entries (db w'))))
           /\ exists w'',
               Class_save w' = (inr tt, w'')
               /\ is_scheduled (class_row (self w'')) = false
               /\ fst (get_timeline_entry w'') = inr None
               /\ exists kc, class_pk (self w'') = Some kc
                             /\ get kc (classes (db w'')) = Some (class_row (self w'')))
  /\ (forall entry,
         fst (get_timeline_entry w) = inr (Some entry) ->
         timeline_entry_id (class_row (self w)) <> entry_pk entry ->
         unschedule w = (inl DoesNotExist, w))
  /\ (forall exn,
         fst (get_timeline_entry w) = inl exn ->
         unschedule w = (inl DoesNotExist, w))
  /\ (forall entry,
         can_be_scheduled entry w = true ->
         exists w1 w2 w3 w4,
           assign_entry entry w = (inr tt, w1)
           /\ Class_save w1 = (inr tt, w2)
           /\ is_scheduled (class_row (self w2)) = true
           /\ unschedule w2 = (inr tt, w3)
           /\ is_scheduled (class_row (self w3)) = true
           /\ Class_save w3 = (inr tt, w4)
           /\ is_scheduled (class_row (self w4)) = false).
Proof.
  assert (Hgo : forall w0 entry,
             fst (get_timeline_entry w0) = inr (Some entry) ->
             timeline_entry_id (class_row (self w0)) = entry_pk entry ->
             exists w',
               unschedule w0 = (inr tt, w')
               /\ timeline_entry_cache (self w') = None
               /\ timeline_entry_id (class_row (self w')) = None
               /\ class_pk (self w') = class_pk (self w0)
               /\ is_scheduled (class_row (self w')) = is_scheduled (class_row (self w0))
               /\ classes (db w')
                  = classes (db (snd (classes_remove entry (snd (get_timeline_entry w0)))))
               /\ entries (db w') = entries (snd (Entry_save entry (db w0)))).
  { intros w0 entry Hget Hcol. rewrite (unschedule_run w0 entry Hget Hcol).
    destruct (get_timeline_entry_frame w0) as [Hdb [Hpk [Hrow _]]].
    eexists. split; [reflexivity|].
    cbn [self db]. unfold assign_timeline_entry, with_cache, with_row.
    cbn [timeline_entry_cache class_row class_pk timeline_entry_id is_scheduled
         set_timeline_entry_id].
    rewrite Hpk, Hrow.
    split; [reflexivity|]. split; [reflexivity|]. split; [reflexivity|].
    split; [reflexivity|]. split; [reflexivity|].
    unfold classes_remove. rewrite Hrow, Hcol, same_key_refl.
    unfold Entry_save. cbn. rewrite Hdb. reflexivity. }
  assert (Hsave : forall w',
             timeline_entry_cache (self w') = None ->
             timeline_entry_id (class_row (self w')) = None ->
             exists w'',
               Class_save w' = (inr tt, w'')
               /\ is_scheduled (class_row (self w'')) = false
               /\ fst (get_timeline_entry w'') = inr None
               /\ exists kc, class_pk (self w'') = Some kc
                             /\ get kc (classes (db w'')) = Some (class_row (self w''))).
  { intros w' Hc Hid. rewrite (Class_save_detached w' Hc Hid).
    eexists. split; [reflexivity|]. cbn [self db class_row class_pk].
    split; [reflexivity|]. split.
    - unfold get_timeline_entry. cbn. now rewrite Hid.
    - eexists. split; [reflexivity|]. apply save_base_get. }
  split; [| split; [| split; [| split; [| split]]]].
  - split.
    + intros Hfail.
      destruct (fst (get_timeline_entry w)) as [exn | [entry|]] eqn:Hget.
      * exfalso. unfold unschedule, bind in Hfail.
        destruct (get_timeline_entry_raises w exn Hget) as [-> _].
        destruct (get_timeline_entry w) as [r w1]. simpl in Hget. subst r.
        discriminate.
      * exfalso.
        destruct (same_key (timeline_entry_id (class_row (self w))) (entry_pk entry))
          eqn:Hsame.
        -- apply same_key_eq in Hsame.
           destruct (Hgo w entry Hget Hsame) as [w' [Hrun _]]. rewrite Hrun in Hfail.
           discriminate.
        -- rewrite (unschedule_unrelated w entry Hget) in Hfail; [discriminate|].
           intros Heq. apply same_key_eq in Heq. congruence.
      * reflexivity.
    + intros Hnone. unfold unschedule, bind.
      destruct (get_timeline_entry w) as [r w1]. simpl in Hnone. subst r.
      reflexivity.
  - intros Hnone. pose proof (get_timeline_entry_none w Hnone) as Hsame.
    unfold unschedule, bind.
    destruct (get_timeline_entry w) as [r w1]. simpl in *. now subst.
  - intros entry Hget Hcol.
    destruct (Hgo w entry Hget Hcol) as [w' [Hrun [Hc [Hid [Hpk [Hflag [Hcl Hen]]]]]]].
    destruct (get_timeline_entry_frame w) as [Hdb [Hpk1 [Hrow1 _]]].
    exists w'. split; [exact Hrun|].
    split; [unfold get_timeline_entry; now rewrite Hc, Hid|].
    split; [exact Hpk|]. split; [exact Hflag|].
    split; [rewrite Hcl, classes_remove_keys, Hdb; reflexivity|].
    split.
    { intros kr Hin Hne. rewrite Hcl. apply classes_remove_other.
      - now rewrite Hdb.
      - now rewrite Hpk1. }
    split.
    { intros k r Hown Hin Hid'. rewrite Hcl. apply classes_remove_own.
      - now rewrite Hrow1.
      - now rewrite Hpk1.
      - now rewrite Hdb.
      - exact Hid'. }
    split.
    { intros kr' Hin. rewrite Hcl in Hin.
      apply classes_remove_flags in Hin. now rewrite Hdb in Hin. }
    split; [rewrite Hen; now apply Entry_save_get|].
    split; [intros k Hin; rewrite Hen; now apply Entry_save_keeps_keys|].
    exact (Hsave w' Hc Hid).
  - intros entry Hget Hcol. exact (unschedule_unrelated w entry Hget Hcol).
  - intros exn Hget.
    destruct (get_timeline_entry_raises w exn Hget) as [-> Hsame].
    unfold unschedule, bind.
    destruct (get_timeline_entry w) as [r w1]. cbn [fst snd] in Hget, Hsame.
    subst r w1. reflexivity.
  - intros entry Hcan.
    rewrite (assign_entry_success entry w Hcan).
    destruct (Class_save_with_entry
                (mkWorld (assign_timeline_entry (Some entry) (self w)) (db w))
                entry eq_refl eq_refl)
      as [w2 [Hs2 [Hcache [Hcol2 [Hflag2 _]]]]].
    assert (Hget2 : fst (get_timeline_entry w2)
                    = inr (Some (set_entry_pk
                                   (key_for (entry_pk entry) (entries (db w))) entry)))
      by (unfold get_timeline_entry; cbn [self db] in Hcache; now rewrite Hcache).
    destruct (Hgo w2 _ Hget2 Hcol2) as [w3 [Hrun [Hc [Hid [_ [Hflag3 _]]]]]].
    destruct (Hsave w3 Hc Hid) as [w4 [Hs4 [Hflag4 _]]].
    exists (mkWorld (assign_timeline_entry (Some entry) (self w)) (db w)), w2, w3, w4.
    split; [reflexivity|]. split; [exact Hs2|]. split; [exact Hflag2|].
    split; [exact Hrun|]. split; [congruence|]. split; [exact Hs4 | exact Hflag4].
Qed.

End SchedulingFacts.

(** ** Saving a subscription *)

Section SubscriptionFacts.
Import Django Timeline Hub.

Variable product_of : nat -> nat -> Product.

Lemma Subscription_save_existing (w : World Subscription) (k : nat) :
  sub_pk (self w) = Some k -> k <> 0 ->
  Subscription_save product_of w
  = match update_classes w with
    | (inl exn, w') => (inl exn, w')
    | (inr _, w') => Subscription_super_save w'
    end.
Proof.
  intros Hpk Hk. unfold Subscription_save, bind, gets. rewrite Hpk.
  destruct k as [|k]; [congruence|]. cbn [pk_truthy negb].
  destruct (update_classes w) as [[exn|u] w']; [reflexivity|].
  destruct (Subscription_super_save w') as [[exn|[]] w'']; reflexivity.
Qed.

Lemma In_keys {R : Type} (kr : nat * R) (t : table R) : In kr t -> In (fst kr) (keys t).
Proof. intros Hin. unfold keys. now apply in_map. Qed.

(** C3: saving a stored subscription whose [active] differs from the stored
    value rewrites every class row linked to it with the new value (and the
    recomputed [is_scheduled]) and leaves all other class rows as they are;
    when the stored value equals the new one no class row changes.  The
    value compared with is the one read from the database. *)
Theorem subscription_update_cascades (w : World Subscription) (k : nat)
        (orig : SubscriptionRow) :
  sub_pk (self w) = Some k ->
  k <> 0 ->
  get k (subscriptions (db w)) = Some orig ->
  NoDup (keys (classes (db w))) ->
  (forall kr eid, In kr (classes (db w)) ->
                  timeline_entry_id (snd kr) = Some eid ->
                  In eid (keys (entries (db w)))) ->
  exists w',
    Subscription_save product_of w = (inr tt, w')
    /\ self w' = self w
    /\ get k (subscriptions (db w')) = Some (sub_row (self w))
    /\ (sub_active orig <> sub_active (sub_row (self w)) ->
        classes (db w')
        = map (cascade (Some k) (sub_active (sub_row (self w)))) (classes (db w))
        /\ (forall kr, In kr (classes (db w)) -> linked_to (Some k) kr = true ->
                       In (fst kr, cascaded (sub_active (sub_row (self w))) (snd kr))
                          (classes (db w'))
                       /\ active (cascaded (sub_active (sub_row (self w))) (snd kr))
                          = sub_active (sub_row (self w)))
        /\ (forall kr, In kr (classes (db w)) -> linked_to (Some k) kr = false ->
                       In kr (classes (db w')))
        /\ (forall kr', In kr' (classes (db w')) ->
                        In kr' (classes (db w))
                        \/ active (snd kr') = sub_active (sub_row (self w))))
    /\ (sub_active orig = sub_active (sub_row (self w)) ->
        classes (db w') = classes (db w) /\ entries (db w') = entries (db w)).
Proof.
  intros Hpk Hk Hget Hnodup Hfk.
  rewrite (Subscription_save_existing w k Hpk Hk).
  destruct w as [s st]. cbn [self db] in *.
  pose proof (get_some_exists k orig (subscriptions st) Hget) as Hex.
  assert (Hsuper : forall st0,
             subscriptions st0 = subscriptions st ->
             Subscription_super_save (mkWorld s st0)
             = (inr tt, mkWorld s (with_subscriptions
                                     (update k (sub_row s) (subscriptions st)) st0))).
  { intros st0 Hsub. unfold Subscription_super_save. cbn [self db].
    rewrite Hpk, Hsub, save_base_existing by exact Hex.
    destruct s. cbn in *. now subst. }
  unfold update_classes, bind at 1 2, gets at 1, Subscription_objects_get.
  cbn [self db]. rewrite Hpk, Hget.
  destruct (Z.eqb_spec (sub_active orig) (sub_active (sub_row s))) as [Heq | Hne];
    cbn [negb ret]; unfold bind, classes_all, gets; cbn [self db].
  - rewrite (Hsuper st eq_refl). eexists. split; [reflexivity|].
    cbn [self db]. split; [reflexivity|].
    split; [now apply get_update_same|].
    split; [intros Hdiff; congruence|]. intros _. now split.
  - destruct (cascade_loop s (sub_active (sub_row s))
                (filter (linked_to (Some k)) (classes st)) st)
      as [st' [Hloop [Hcl [Hen Hsub]]]].
    + intros kr Hin. apply filter_In in Hin. now apply In_keys.
    + intros kr eid Hin Hid. apply filter_In in Hin. now apply (Hfk kr eid).
    + rewrite Hloop, (Hsuper st' Hsub). eexists. split; [reflexivity|].
      cbn [self db]. split; [reflexivity|].
      split; [cbn; now apply get_update_same|].
      rewrite (fold_update_filter (cascaded (sub_active (sub_row s)))
                 (linked_to (Some k)) (classes st) Hnodup) in Hcl.
      split; [|intros Heq; congruence]. intros _.
      cbn [classes with_subscriptions]. rewrite Hcl.
      split; [reflexivity|]. split; [|split].
      * intros kr Hin Hlinked. split.
        -- apply in_map_iff. exists kr. now rewrite Hlinked.
        -- unfold cascaded. now destruct (timeline_entry_id (snd kr)).
      * intros kr Hin Hfree. apply in_map_iff. exists kr. now rewrite Hfree.
      * intros kr' Hin. apply in_map_iff in Hin. destruct Hin as [kr [Hkr Hin]].
        destruct (linked_to (Some k) kr); subst kr'.
        -- right. unfold cascaded. now destruct (timeline_entry_id (snd kr)).
        -- now left.
Qed.

Lemma for_each_app {W A : Type} (xs ys : list A) (body : A -> M W unit) :
  forall w,
    for_each (xs ++ ys) body w
    = bind (for_each xs body) (fun _ => for_each ys body) w.
Proof.
  induction xs as [|x xs IH]; intros w; cbn [for_each app].
  - reflexivity.
  - unfold bind in *. destruct (body x w) as [[exn|u] w1]; [reflexivity|]. apply IH.
Qed.

(** The two nested loops visit the lesson units in order. *)
Lemma for_each_nested {W A B : Type} (f : A -> list B) (xs : list A)
      (body : B -> M W unit) :
  forall w,
    for_each xs (fun x => for_each (f x) body) w = for_each (flat_map f xs) body w.
Proof.
  induction xs as [|x xs IH]; intros w; cbn [for_each flat_map]; [reflexivity|].
  rewrite for_each_app. unfold bind.
  destruct (for_each (f x) body w) as [[exn|u] w1]; [reflexivity | apply IH].
Qed.

Lemma provision_loop (s : Subscription) (units : list Lesson) :
  forall st,
    for_each units
      (fun lesson => bind (gets self) (fun s' => call_on (new_class s' lesson) Class_save))
      (mkWorld s st)
    = (inr tt,
       mkWorld s
         (with_classes
            (classes st
             ++ combine (seq (next_pk (classes st)) (length units))
                        (map (fun lesson => class_row (new_class s lesson)) units))
            st)).
Proof.
  induction units as [|lesson units IH]; intros st.
  - cbn. rewrite app_nil_r. now destruct st.
  - cbn [for_each]. unfold bind at 1 2, gets, call_on. cbn [self db].
    rewrite (Class_save_detached (mkWorld (new_class s lesson) st) eq_refl eq_refl).
    cbn [self db class_pk class_row new_class save_base fst snd].
    rewrite IH. cbn [classes with_classes length seq map combine].
    rewrite next_pk_insert. unfold insert. rewrite <- app_assoc. reflexivity.
Qed.

Lemma Subscription_super_save_classes (w : World Subscription) :
  fst (Subscription_super_save w) = inr tt
  /\ classes (db (snd (Subscription_super_save w))) = classes (db w).
Proof.
  unfold Subscription_super_save. destruct (save_base _ _ _). now split.
Qed.

(** Saving a subscription that already has a key neither adds nor drops a
    class row, whatever the outcome of the save. *)
Lemma Subscription_save_keeps_class_keys (w : World Subscription) (k : nat) :
  sub_pk (self w) = Some k -> k <> 0 ->
  keys (classes (db (snd (Subscription_save product_of w)))) = keys (classes (db w)).
Proof.
  intros Hpk Hk. rewrite (Subscription_save_existing w k Hpk Hk).
  assert (Hupd : keys (classes (db (snd (update_classes w)))) = keys (classes (db w))).
  { unfold update_classes, bind, gets, Subscription_objects_get, classes_all.
    rewrite Hpk. destruct (get k (subscriptions (db w))) as [orig|]; [|reflexivity].
    destruct (negb _); [|reflexivity].
    destruct w as [s st]. cbn [self db]. apply cascade_loop_keys.
    intros kr Hin. apply filter_In in Hin. now apply In_keys. }
  destruct (update_classes w) as [[exn|u] w1]; cbn [snd] in *; [exact Hupd|].
  destruct (Subscription_super_save_classes w1) as [_ Hcl]. now rewrite Hcl.
Qed.

(** C2: the first save of a subscription stores its row under a fresh key
    and appends one class row per lesson unit of its product, in the order
    of the units, each under a fresh key, with the subscription's customer
    and price, [buy_source] 1, and the subscription's key; any later save
    of a subscription with that key leaves the set of class rows as it is. *)
Theorem subscription_creation_provisions (w : World Subscription) :
  sub_pk (self w) = None ->
  let k := next_pk (subscriptions (db w)) in
  let units := lesson_units (product_of (product_type (sub_row (self w)))
                                        (product_id (sub_row (self w)))) in
  let provisioned (lesson : Lesson) :=
    mkClassRow (sub_customer (sub_row (self w))) (sub_buy_price (sub_row (self w)))
               1 false 1 (lesson_content_type lesson) (lesson_pk lesson)
               None (Some k) in
  exists w',
    Subscription_save product_of w = (inr tt, w')
    /\ sub_pk (self w') = Some k
    /\ sub_row (self w') = sub_row (self w)
    /\ get k (subscriptions (db w')) = Some (sub_row (self w))
    /\ classes (db w')
       = classes (db w)
         ++ combine (seq (next_pk (classes (db w))) (length units))
                    (map provisioned units)
    /\ length (classes (db w')) = length (classes (db w)) + length units
    /\ entries (db w') = entries (db w)
    /\ keys (classes (db (snd (Subscription_save product_of w'))))
       = keys (classes (db w'))
    /\ (forall w2, sub_pk (self w2) = Some k ->
                   keys (classes (db (snd (Subscription_save product_of w2))))
                   = keys (classes (db w2))).
Proof.
  intros Hpk k units provisioned. destruct w as [s st]. cbn [self db] in *.
  assert (Hrun : Subscription_save product_of (mkWorld s st)
                 = (inr tt,
                    mkWorld (mkSubscription (Some k) (sub_row s) (sub_request s))
                      (with_classes
                         (classes st
                          ++ combine (seq (next_pk (classes st)) (length units))
                                     (map provisioned units))
                         (with_subscriptions (insert k (sub_row s) (subscriptions st))
                                             st)))).
  { unfold Subscription_save, bind at 1 2 3, gets. cbn [self db]. rewrite Hpk.
    cbn [pk_truthy negb ret]. unfold Subscription_super_save. cbn [self db].
    rewrite Hpk. cbn [save_base]. unfold add_lessons_to_user, bind at 1, gets at 1.
    cbn [self db sub_row].
    rewrite for_each_nested, provision_loop. reflexivity. }
  assert (Hk : k <> 0) by (unfold k, next_pk; discriminate).
  rewrite Hrun. eexists. split; [reflexivity|].
  split; [reflexivity|]. split; [reflexivity|].
  split; [apply get_insert_fresh, next_pk_fresh|].
  split; [reflexivity|].
  split.
  { cbn [db classes with_classes].
    rewrite length_app, length_combine, length_seq, length_map.
    now rewrite Nat.min_id. }
  split; [reflexivity|].
  split.
  - now apply (Subscription_save_keeps_class_keys _ k).
  - intros w2 Hpk2. now apply (Subscription_save_keeps_class_keys w2 k).
Qed.

End SubscriptionFacts.

(** * Worked examples *)

Section Examples.
Import Django Timeline Hub.

(** [assign_entry] is refused for a class whose [is_scheduled] is set. *)
Lemma assign_entry_failure_atomic_witness :
  can_be_scheduled (always true) (always true) sample_entry
                   (snd (unschedule scheduled_world)) = false
  /\ assign_entry (always true) (always true) sample_entry
                  (snd (unschedule scheduled_world))
     = (inl CannotBeScheduled, snd (unschedule scheduled_world)).
Proof.
  split; [reflexivity|].
  apply (assign_entry_failure_atomic (always true) (always true) sample_entry
           (snd (unschedule scheduled_world))).
  reflexivity.
Defined.

(** C5, counterexample: on the sample class and a fresh free entry
    [assign_entry] returns, yet [is_scheduled] is still false and no entry
    row has been written. *)
Lemma assign_entry_alone_marks_nothing :
  can_be_scheduled (always true) (always true) sample_entry sample_world = true
  /\ fst (assign_entry (always true) (always true) sample_entry sample_world) = inr tt
  /\ is_scheduled
       (class_row (self (snd (assign_entry (always true) (always true)
                                           sample_entry sample_world)))) = false
  /\ entries (db (snd (assign_entry (always true) (always true)
                                    sample_entry sample_world))) = [].
Proof. repeat split. Qed.

(** C7, counterexample: the sample class, assigned and saved, is scheduled;
    [unschedule] returns and takes the entry off, yet [is_scheduled] stays
    true on the object and in the stored row. *)
Lemma unschedule_leaves_is_scheduled_set :
  is_scheduled (class_row (self scheduled_world)) = true
  /\ has_entry (timeline_entry_cache (self scheduled_world)) = true
  /\ fst (unschedule scheduled_world) = inr tt
  /\ fst (get_timeline_entry (snd (unschedule scheduled_world))) = inr None
  /\ is_scheduled (class_row (self (snd (unschedule scheduled_world)))) = true
  /\ option_map is_scheduled (get 1 (classes (db (snd (unschedule scheduled_world)))))
     = Some true
  /\ option_map timeline_entry_id
       (get 1 (classes (db (snd (unschedule scheduled_world))))) = Some None.
Proof. repeat split. Qed.

(** Saving the new sample subscription creates three classes. *)
Lemma subscription_creation_provisions_witness :
  exists w',
    Subscription_save sample_catalog new_subscription = (inr tt, w')
    /\ length (classes (db w')) = 4.
Proof.
  destruct (subscription_creation_provisions sample_catalog new_subscription eq_refl)
    as [w' [Hrun [_ [_ [_ [_ [Hlen _]]]]]]].
  exists w'. split; [exact Hrun | exact Hlen].
Defined.

Example provisioned_rows :
  classes (db (snd (Subscription_save sample_catalog new_subscription)))
  = [ (1, sample_row);
      (2, mkClassRow 5 (usd 9900) 1 false 1 3 11 None (Some 1));
      (3, mkClassRow 5 (usd 9900) 1 false 1 3 12 None (Some 1));
      (4, mkClassRow 5 (usd 9900) 1 false 1 4 21 None (Some 1)) ].
Proof. reflexivity. Qed.

(** Saving the disabled sample subscription succeeds. *)
Lemma subscription_update_cascades_witness :
  exists w',
    Subscription_save sample_catalog disabled_subscription = (inr tt, w')
    /\ self w' = self disabled_subscription.
Proof.
  destruct (subscription_update_cascades sample_catalog disabled_subscription 1
              (mkSubscriptionRow 5 9 1 (usd 9900) 1))
    as [w' [Hrun [Hself _]]].
  - reflexivity.
  - discriminate.
  - reflexivity.
  - cbn. repeat (constructor; [cbn; lia|]). constructor.
  - intros kr eid [<- | [<- | [<- | []]]]; cbn; intros [= <-]. left. reflexivity.
  - exists w'. split; [exact Hrun | exact Hself].
Defined.

Example cascaded_rows :
  classes (db (snd (Subscription_save sample_catalog disabled_subscription)))
  = [ (1, sample_row);
      (2, mkClassRow 5 (usd 9900) 0 true 1 3 11 (Some 1) (Some 1));
      (3, mkClassRow 5 (usd 9900) 0 false 1 4 21 None (Some 1)) ].
Proof. reflexivity. Qed.

(** The sample class and the fresh sample entry pass all four checks. *)
Lemma can_be_scheduled_cases_witness :
  can_be_scheduled (always true) (always true) sample_entry sample_world = true.
Proof.
  destruct (can_be_scheduled_cases (always true) (always true) sample_entry sample_world)
    as [_ [_ [_ [_ Hok]]]].
  apply Hok; [reflexivity | reflexivity | reflexivity | left; reflexivity].
Defined.

(** Assigning the sample entry and saving schedules the sample class. *)
Lemma assign_entry_then_save_witness :
  exists w',
    Class_save (snd (assign_entry (always true) (always true) sample_entry sample_world))
    = (inr tt, w')
    /\ is_scheduled (class_row (self w')) = true
    /\ get 1 (entries (db w')) = Some (set_entry_pk 1 sample_entry).
Proof.
  destruct (assign_entry_then_save (always true) (always true) sample_entry sample_world)
    as [_ [_ Hok]].
  destruct (Hok eq_refl) as [_ [_ [w' [Hsave [_ [_ [Hflag [Hget _]]]]]]]].
  exists w'. split; [exact Hsave|]. split; [exact Hflag | exact Hget].
Defined.

(** Unscheduling the scheduled sample class and saving clears the flag. *)
Lemma unschedule_then_save_witness :
  exists w' w'',
    unschedule scheduled_world = (inr tt, w')
    /\ Class_save w' = (inr tt, w'')
    /\ is_scheduled (class_row (self w'')) = false.
Proof.
  destruct (unschedule_then_save (always true) (always true) scheduled_world)
    as [_ [_ [Hgo _]]].
  destruct (Hgo (set_entry_pk 1 sample_entry) eq_refl eq_refl)
    as [w' [Hrun [_ [_ [_ [_ [_ [_ [_ [_ [_ [w'' [Hsave [Hflag _]]]]]]]]]]]]]].
  exists w', w''. split; [exact Hrun|]. split; [exact Hsave | exact Hflag].
Defined.

(** A caller attaches an entry directly and saves: the flag follows. *)
Lemma Class_save_recomputes_is_scheduled_witness :
  exists w',
    Class_save (mkWorld (assign_timeline_entry (Some sample_entry) sample_class)
                        sample_store)
    = (inr tt, w')
    /\ is_scheduled (class_row (self w')) = true.
Proof.
  pose proof (Class_save_recomputes_is_scheduled
                (mkWorld (assign_timeline_entry (Some sample_entry) sample_class)
                         sample_store)) as Hsave.
  cbn [get_timeline_entry fst self timeline_entry_cache assign_timeline_entry with_cache]
    in Hsave.
  destruct Hsave as [w' [Hrun [_ [Hhas [Hflag _]]]]].
  exists w'. split; [exact Hrun|]. rewrite Hflag. exact Hhas.
Defined.

End Examples.

(** * Further properties *)

(** ** Saving twice *)

Section SaveAgainFacts.
Import Django.
Context {R : Type}.
Implicit Types (t : table R) (k : nat) (r : R).

Lemma update_update k r t : update k r (update k r t) = update k r t.
Proof.
  unfold update. rewrite map_map. apply map_ext. intros [k' r'].
  rewrite !has_key_pair. destruct (Nat.eqb_spec k' k) as [-> | Hne].
  - now rewrite has_key_pair, Nat.eqb_refl.
  - rewrite has_key_pair. now destruct (Nat.eqb_spec k' k).
Qed.

Lemma update_insert_fresh k r t :
  exists_pk k t = false -> update k r (insert k r t) = insert k r t.
Proof.
  intros Hfresh. unfold update, insert. rewrite map_app. cbn [map].
  rewrite has_key_pair, Nat.eqb_refl. f_equal.
  rewrite <- (map_id t) at 2. apply map_ext_in. intros [k' r'] Hin.
  rewrite has_key_pair. destruct (Nat.eqb_spec k' k) as [-> | Hne]; [|reflexivity].
  exfalso. assert (Hex : exists_pk k t = true).
  { apply exists_pk_In. unfold keys. apply in_map_iff. now exists (k, r'). }
  congruence.
Qed.

Lemma exists_pk_update k k' r t : exists_pk k (update k' r t) = exists_pk k t.
Proof.
  destruct (exists_pk k t) eqn:Hex.
  - apply exists_pk_In. rewrite keys_update. now apply exists_pk_In.
  - destruct (exists_pk k (update k' r t)) eqn:Hex'; [|reflexivity].
    apply exists_pk_In in Hex'. rewrite keys_update in Hex'.
    apply exists_pk_In in Hex'. congruence.
Qed.

Lemma exists_pk_insert_same k r t : exists_pk k (insert k r t) = true.
Proof.
  apply exists_pk_In. rewrite keys_insert. apply in_or_app. right. now left.
Qed.

(** Saving an instance again, with the key it was given and the same
    columns, leaves the table as the first save left it. *)
Lemma save_base_again pk r t :
  save_base (Some (fst (save_base pk r t))) r (snd (save_base pk r t))
  = save_base pk r t.
Proof.
  unfold save_base. destruct pk as [k|].
  - destruct (exists_pk k t) eqn:Hex; cbn [fst snd].
    + now rewrite exists_pk_update, Hex, update_update.
    + now rewrite exists_pk_insert_same, update_insert_fresh.
  - cbn [fst snd]. rewrite exists_pk_insert_same.
    now rewrite update_insert_fresh by apply next_pk_fresh.
Qed.

End SaveAgainFacts.

Section ClassSaveAgain.
Import Django Timeline Hub.
Implicit Types (w : World BoughtClass) (e : Entry) (st : Store).

Lemma with_entries_same st : with_entries (entries st) st = st.
Proof. now destruct st. Qed.

Lemma with_classes_same st : with_classes (classes st) st = st.
Proof. now destruct st. Qed.

(** An entry that was just saved is written back unchanged by another save,
    as long as the entry table is the one the first save left. *)
Lemma Entry_save_settled e st0 st :
  entries st = entries (snd (Entry_save e st0)) ->
  Entry_save (fst (Entry_save e st0)) st = (fst (Entry_save e st0), st).
Proof.
  intros Hsame. unfold Entry_save at 1. rewrite Hsame.
  cbn [fst snd Entry_save entries with_entries entry_pk set_entry_pk key_for].
  change (set_entry_pk (key_for (entry_pk e) (entries st0))
            (set_entry_pk (key_for (entry_pk e) (entries st0)) e))
    with (set_entry_pk (key_for (entry_pk e) (entries st0)) e).
  rewrite <- (save_base_key (entry_pk e)
                (set_entry_pk (key_for (entry_pk e) (entries st0)) e) (entries st0)) at 2.
  rewrite save_base_again.
  f_equal. rewrite <- (with_entries_same st) at 2. now rewrite Hsame.
Qed.

Lemma Class_save_again_cached w e w1 :
  timeline_entry_cache (self w) = Some e ->
  Class_save w = (inr tt, w1) ->
  Class_save w1 = (inr tt, w1).
Proof.
  intros Hc Hrun. destruct (pk_truthy (entry_pk e)) eqn:Ht.
  - rewrite (Class_save_cached_saved w e Hc Ht) in Hrun.
    apply (f_equal snd) in Hrun. cbn [snd] in Hrun. subst w1.
    set (row := set_is_scheduled true (class_row (self w))).
    set (kt := save_base (class_pk (self w)) row (classes (db w))).
    set (st2 := with_classes (snd kt) (db w)).
    assert (Hkt : save_base (Some (fst kt)) row (snd kt) = kt) by apply save_base_again.
    assert (Ht1 : pk_truthy (entry_pk (fst (Entry_save e st2))) = true).
    { rewrite Entry_save_fst. cbn. destruct (entry_pk e); [exact Ht | discriminate]. }
    assert (Hst : with_classes (snd kt) (snd (Entry_save e st2)) = snd (Entry_save e st2))
      by exact (with_classes_same (snd (Entry_save e st2))).
    match goal with |- Class_save ?x = _ => set (w1 := x) end.
    rewrite (Class_save_cached_saved w1 (fst (Entry_save e st2)) eq_refl Ht1).
    subst w1. cbn [self db class_row class_pk class_request].
    change (set_is_scheduled true row) with row.
    change (classes (snd (Entry_save e st2))) with (snd kt).
    rewrite !Hkt, Hst.
    rewrite (Entry_save_settled e st2) by reflexivity.
    reflexivity.
  - rewrite (Class_save_cached_new w e Hc Ht) in Hrun.
    apply (f_equal snd) in Hrun. cbn [snd] in Hrun. subst w1.
    set (es1 := Entry_save e (db w)).
    set (row := set_is_scheduled true
                  (set_timeline_entry_id (entry_pk (fst es1)) (class_row (self w)))).
    set (kt := save_base (class_pk (self w)) row (classes (db w))).
    set (st2 := with_classes (snd kt) (snd es1)).
    assert (Hkt : save_base (Some (fst kt)) row (snd kt) = kt) by apply save_base_again.
    set (es2 := Entry_save (fst es1) st2).
    assert (Hfst : fst es2 = fst es1) by apply Entry_save_again.
    assert (Hst : with_classes (snd kt) (snd es2) = snd es2)
      by exact (with_classes_same (snd es2)).
    assert (Hsettled : forall st, entries st = entries (snd es2) ->
                                  Entry_save (fst es2) st = (fst es2, st)).
    { intros st Hen. rewrite Hfst. rewrite <- Hfst at 2.
      apply (Entry_save_settled (fst es1) st2). exact Hen. }
    match goal with |- Class_save ?x = _ => set (w1 := x) end.
    destruct (pk_truthy (entry_pk (fst es2))) eqn:Ht1.
    + rewrite (Class_save_cached_saved w1 (fst es2) eq_refl Ht1).
      subst w1. cbn [self db class_row class_pk class_request].
      change (set_is_scheduled true row) with row.
      change (classes (snd es2)) with (snd kt).
      rewrite !Hkt, Hst.
      rewrite Hsettled by reflexivity. reflexivity.
    + rewrite (Class_save_cached_new w1 (fst es2) eq_refl Ht1).
      subst w1. cbn [self db class_row class_pk class_request].
      rewrite (Hsettled (snd es2)) by reflexivity. cbn [fst snd].
      rewrite Hfst.
      change (set_is_scheduled true (set_timeline_entry_id (entry_pk (fst es1)) row))
        with row.
      change (classes (snd es2)) with (snd kt).
      rewrite !Hkt, Hst.
      rewrite <- Hfst. rewrite Hsettled by reflexivity. reflexivity.
Qed.

Lemma Class_save_again_detached w w1 :
  timeline_entry_cache (self w) = None ->
  timeline_entry_id (class_row (self w)) = None ->
  Class_save w = (inr tt, w1) ->
  Class_save w1 = (inr tt, w1).
Proof.
  intros Hc Hid Hrun. rewrite (Class_save_detached w Hc Hid) in Hrun.
  apply (f_equal snd) in Hrun. cbn [snd] in Hrun. subst w1.
  set (row := set_is_scheduled false (class_row (self w))).
  set (kt := save_base (class_pk (self w)) row (classes (db w))).
  assert (Hkt : save_base (Some (fst kt)) row (snd kt) = kt) by apply save_base_again.
  match goal with |- Class_save ?x = _ => set (w1 := x) end.
  rewrite (Class_save_detached w1 eq_refl Hid).
  subst w1. cbn [self db class_row class_pk class_request].
  change (set_is_scheduled false row) with row.
  change (classes (with_classes (snd kt) (db w))) with (snd kt).
  rewrite !Hkt. reflexivity.
Qed.

(** X1: saving a class again right after a save that returned changes
    nothing, neither the object nor any table. *)
Theorem Class_save_idempotent w w1 :
  Class_save w = (inr tt, w1) -> Class_save w1 = (inr tt, w1).
Proof.
  intros Hrun.
  destruct (timeline_entry_cache (self w)) as [e|] eqn:Hc.
  - exact (Class_save_again_cached w e w1 Hc Hrun).
  - destruct (timeline_entry_id (class_row (self w))) as [k|] eqn:Hid.
    + destruct (get k (entries (db w))) as [e|] eqn:Hget.
      * rewrite (Class_save_fetch w k e Hc Hid Hget) in Hrun.
        exact (Class_save_again_cached
                 (mkWorld (with_cache (Some (set_entry_pk k e)) (self w)) (db w))
                 (set_entry_pk k e) w1 eq_refl Hrun).
      * rewrite (Class_save_dangling w k Hc Hid Hget) in Hrun. discriminate.
    + exact (Class_save_again_detached w w1 Hc Hid Hrun).
Qed.

End ClassSaveAgain.

(** ** What a save of a class leaves alone *)

Section ClassSaveFrame.
Import Django Timeline Hub.
Implicit Types (w : World BoughtClass) (e : Entry) (st : Store).

Lemma save_base_other {R : Type} (pk : option nat) (r : R) (t : table R)
      (kr : nat * R) :
  In kr t -> pk <> Some (fst kr) -> In kr (snd (save_base pk r t)).
Proof.
  intros Hin Hne. unfold save_base. destruct pk as [k|].
  - destruct (exists_pk k t); cbn [snd].
    + unfold update. apply in_map_iff. exists kr. split; [|exact Hin].
      destruct kr as [k' r']. rewrite has_key_pair.
      destruct (Nat.eqb_spec k' k) as [-> | _]; [now elim Hne | reflexivity].
    + unfold insert. apply in_or_app. now left.
  - cbn [snd]. unfold insert. apply in_or_app. now left.
Qed.

Lemma save_base_length {R : Type} (pk : option nat) (r : R) (t : table R) :
  length (snd (save_base pk r t)) <= S (length t).
Proof.
  unfold save_base. destruct pk as [k|]; [destruct (exists_pk k t)|]; cbn [snd];
    unfold update, insert; rewrite ?length_map, ?length_app; cbn; lia.
Qed.

(** The database after [Class.save], whatever the outcome: the class table
    is the old one with at most the row of [self] written, the entry table
    has lost no key, the subscriptions are as they were. *)
Lemma Class_save_db w :
  db (snd (Class_save w)) = db w
  \/ exists row en,
       classes (db (snd (Class_save w)))
       = snd (save_base (class_pk (self w)) row (classes (db w)))
       /\ entries (db (snd (Class_save w))) = en
       /\ (forall k, In k (keys (entries (db w))) -> In k (keys en))
       /\ subscriptions (db (snd (Class_save w))) = subscriptions (db w).
Proof.
  assert (Hcached : forall w0 e0,
             timeline_entry_cache (self w0) = Some e0 ->
             exists row en,
               classes (db (snd (Class_save w0)))
               = snd (save_base (class_pk (self w0)) row (classes (db w0)))
               /\ entries (db (snd (Class_save w0))) = en
               /\ (forall k, In k (keys (entries (db w0))) -> In k (keys en))
               /\ subscriptions (db (snd (Class_save w0))) = subscriptions (db w0)).
  { intros w0 e0 Hc. destruct (pk_truthy (entry_pk e0)) eqn:Ht.
    - rewrite (Class_save_cached_saved w0 e0 Hc Ht). cbn [snd db].
      do 2 eexists. split; [reflexivity|]. split; [reflexivity|].
      split; [|reflexivity]. intros k Hin. now apply Entry_save_keeps_keys.
    - rewrite (Class_save_cached_new w0 e0 Hc Ht). cbn [snd db].
      do 2 eexists. split; [reflexivity|]. split; [reflexivity|].
      split; [|reflexivity]. intros k Hin. apply Entry_save_keeps_keys.
      cbn [entries with_classes]. now apply Entry_save_keeps_keys. }
  destruct (timeline_entry_cache (self w)) as [e|] eqn:Hc.
  - right. exact (Hcached w e Hc).
  - destruct (timeline_entry_id (class_row (self w))) as [k|] eqn:Hid.
    + destruct (get k (entries (db w))) as [e|] eqn:Hget.
      * right. rewrite (Class_save_fetch w k e Hc Hid Hget).
        exact (Hcached (mkWorld (with_cache (Some (set_entry_pk k e)) (self w)) (db w))
                       (set_entry_pk k e) eq_refl).
      * left. now rewrite (Class_save_dangling w k Hc Hid Hget).
    + right. rewrite (Class_save_detached w Hc Hid). cbn [snd db].
      do 2 eexists. split; [reflexivity|]. split; [reflexivity|]. now split.
Qed.

(** X2: whether it returns or raises, [Class.save] changes no subscription
    row and no class row other than its own, adds at most one class row, and
    drops no entry row. *)
Theorem Class_save_frame w :
  subscriptions (db (snd (Class_save w))) = subscriptions (db w)
  /\ (forall kr, In kr (classes (db w)) ->
                 class_pk (self w) <> Some (fst kr) ->
                 In kr (classes (db (snd (Class_save w)))))
  /\ length (classes (db (snd (Class_save w)))) <= S (length (classes (db w)))
  /\ (forall k, In k (keys (entries (db w))) ->
                In k (keys (entries (db (snd (Class_save w)))))).
Proof.
  destruct (Class_save_db w) as [Hsame | [row [en [Hcl [Hen [Hkeys Hsub]]]]]].
  - rewrite Hsame. repeat split; auto.
  - rewrite Hcl, Hen, Hsub. split; [reflexivity|]. split; [|split].
    + intros kr Hin Hne. now apply save_base_other.
    + apply save_base_length.
    + exact Hkeys.
Qed.

Lemma Class_save_new_entry w e :
  timeline_entry_cache (self w) = Some e ->
  entry_pk e = None ->
  exists w',
    Class_save w = (inr tt, w')
    /\ entries (db w')
       = insert (next_pk (entries (db w)))
                (set_entry_pk (next_pk (entries (db w))) e) (entries (db w))
    /\ timeline_entry_cache (self w')
       = Some (set_entry_pk (next_pk (entries (db w))) e)
    /\ exists k row, class_pk (self w') = Some k
                     /\ get k (classes (db w')) = Some row
                     /\ timeline_entry_id row = Some (next_pk (entries (db w)))
                     /\ is_scheduled row = true.
Proof.
  intros Hc Hpk.
  assert (Ht : pk_truthy (entry_pk e) = false) by now rewrite Hpk.
  rewrite (Class_save_cached_new w e Hc Ht).
  eexists. split; [reflexivity|]. cbn [self db class_pk class_row timeline_entry_cache].
  set (k := next_pk (entries (db w))).
  assert (Hfst : fst (Entry_save e (db w)) = set_entry_pk k e)
    by (rewrite Entry_save_fst, Hpk; reflexivity).
  assert (Hen : entries (snd (Entry_save e (db w))) = insert k (set_entry_pk k e) (entries (db w)))
    by (unfold Entry_save; cbn [snd entries with_entries]; rewrite Hpk; reflexivity).
  split; [|split].
  - rewrite Hfst. unfold Entry_save at 1. cbn [snd entries with_entries with_classes].
    rewrite Hen. cbn [entry_pk set_entry_pk key_for].
    change (set_entry_pk k (set_entry_pk k e)) with (set_entry_pk k e).
    unfold save_base. rewrite exists_pk_insert_same. cbn [snd].
    apply update_insert_fresh. apply next_pk_fresh.
  - rewrite Entry_save_again. now rewrite Hfst.
  - do 2 eexists. split; [reflexivity|]. split; [apply save_base_get|].
    rewrite Hfst. split; reflexivity.
Qed.

(** X3: a class saved with a fresh entry (one without a key) stores that
    entry exactly once, under the next free key, although [Class.save] calls
    [entry.save()] twice; the class row, stored in between, refers to it. *)
Theorem Class_save_stores_new_entry_once w e :
  timeline_entry_cache (self w) = Some e ->
  entry_pk e = None ->
  exists w',
    Class_save w = (inr tt, w')
    /\ entries (db w')
       = insert (next_pk (entries (db w)))
                (set_entry_pk (next_pk (entries (db w))) e) (entries (db w))
    /\ timeline_entry_cache (self w')
       = Some (set_entry_pk (next_pk (entries (db w))) e)
    /\ exists k row, class_pk (self w') = Some k
                     /\ get k (classes (db w')) = Some row
                     /\ timeline_entry_id row = Some (next_pk (entries (db w)))
                     /\ is_scheduled row = true.
Proof.
  intros Hc Hpk.
  assert (Ht : pk_truthy (entry_pk e) = false) by now rewrite Hpk.
  rewrite (Class_save_cached_new w e Hc Ht).
  eexists. split; [reflexivity|]. cbn [self db class_pk class_row timeline_entry_cache].
  set (k := next_pk (entries (db w))).
  assert (Hfst : fst (Entry_save e (db w)) = set_entry_pk k e)
    by (rewrite Entry_save_fst, Hpk; reflexivity).
  assert (Hen : entries (snd (Entry_save e (db w))) = insert k (set_entry_pk k e) (entries (db w)))
    by (unfold Entry_save; cbn [snd entries with_entries]; rewrite Hpk; reflexivity).
  split; [|split].
  - rewrite Hfst. unfold Entry_save at 1. cbn [snd entries with_entries with_classes].
    rewrite Hen. cbn [entry_pk set_entry_pk key_for].
    change (set_entry_pk k (set_entry_pk k e)) with (set_entry_pk k e).
    unfold save_base. rewrite exists_pk_insert_same. cbn [snd].
    apply update_insert_fresh. apply next_pk_fresh.
  - rewrite Entry_save_again. now rewrite Hfst.
  - do 2 eexists. split; [reflexivity|]. split; [apply save_base_get|].
    rewrite Hfst. split; reflexivity.
Qed.

End ClassSaveFrame.

(** ** Sequences of scheduling calls *)

Section SchedulingSequences.
Import Django Timeline Hub.

Variable is_free : Store -> Entry -> bool.
Variable is_fitting_working_hours : Store -> Entry -> bool.

Local Abbreviation can_be_scheduled :=
  (Hub.can_be_scheduled is_free is_fitting_working_hours).
Local Abbreviation assign_entry :=
  (Hub.assign_entry is_free is_fitting_working_hours).

(** X4: [assign_entry] leaves the verdict of [can_be_scheduled] for every
    entry as it was.  So, before any save, a second assignment that passes
    the checks replaces the first entry as if the first call had not been
    made, and one that fails leaves the first entry in place. *)
Theorem assign_entry_twice (e1 e2 : Entry) (w : World BoughtClass) :
  can_be_scheduled e1 w = true ->
  can_be_scheduled e2 (snd (assign_entry e1 w)) = can_be_scheduled e2 w
  /\ (can_be_scheduled e2 w = true ->
      bind (assign_entry e1) (fun _ => assign_entry e2) w = assign_entry e2 w)
  /\ (can_be_scheduled e2 w = false ->
      bind (assign_entry e1) (fun _ => assign_entry e2) w
      = (inl CannotBeScheduled, snd (assign_entry e1 w))).
Proof.
  intros Hcan. unfold bind. rewrite (assign_entry_success _ _ e1 w Hcan). cbn [snd].
  assert (Hsame : can_be_scheduled e2
                    (mkWorld (assign_timeline_entry (Some e1) (self w)) (db w))
                  = can_be_scheduled e2 w) by reflexivity.
  split; [exact Hsame|]. split; intros Hcan2.
  - rewrite !assign_entry_success by congruence. reflexivity.
  - apply assign_entry_raises. congruence.
Qed.

(** X5: once an assignment has been saved, every further [assign_entry] is
    refused with [CannotBeScheduled], whatever the entry and whatever the
    other three checks say, and changes nothing. *)
Theorem assign_entry_after_save_refused (e : Entry) (w : World BoughtClass) :
  can_be_scheduled e w = true ->
  exists w2,
    bind (assign_entry e) (fun _ => Class_save) w = (inr tt, w2)
    /\ forall e', assign_entry e' w2 = (inl CannotBeScheduled, w2).
Proof.
  intros Hcan. unfold bind. rewrite (assign_entry_success _ _ e w Hcan).
  destruct (Class_save_with_entry
              (mkWorld (assign_timeline_entry (Some e) (self w)) (db w)) e
              eq_refl eq_refl) as [w2 [Hsave [_ [_ [Hflag _]]]]].
  exists w2. split; [exact Hsave|]. intros e'.
  apply assign_entry_raises. rewrite can_be_scheduled_eq, Hflag. reflexivity.
Qed.

(** X6: a second [unschedule] right after one that returned raises
    [CannotBeUnscheduled] and changes nothing. *)
Theorem unschedule_twice (w w' : World BoughtClass) :
  unschedule w = (inr tt, w') ->
  unschedule w' = (inl CannotBeUnscheduled, w').
Proof.
  intros Hrun.
  destruct (unschedule_returned w w' Hrun) as [entry [Hget Hcol]].
  rewrite (unschedule_run w entry Hget Hcol) in Hrun.
  apply (f_equal snd) in Hrun. cbn [snd] in Hrun. subst w'.
  reflexivity.
Qed.

(** X7: after [unschedule] of a class whose [is_scheduled] is set, every
    [assign_entry] is still refused; after the next [save] the verdict of
    [can_be_scheduled] is that of the other three checks alone. *)
Theorem reassign_needs_save (w w' : World BoughtClass) :
  is_scheduled (class_row (self w)) = true ->
  unschedule w = (inr tt, w') ->
  (forall e, assign_entry e w' = (inl CannotBeScheduled, w'))
  /\ exists w'',
      Class_save w' = (inr tt, w'')
      /\ forall e, can_be_scheduled e w''
                   = is_free (db w'') e
                     && (lesson_type (class_row (self w'')) =? entry_lesson_type e)
                     && (allow_besides_working_hours e
                         || is_fitting_working_hours (db w'') e).
Proof.
  intros Hflag Hrun.
  destruct (unschedule_returned w w' Hrun) as [entry [Hget Hcol]].
  rewrite (unschedule_run w entry Hget Hcol) in Hrun.
  apply (f_equal snd) in Hrun. cbn [snd] in Hrun.
  destruct (get_timeline_entry_frame w) as [_ [_ [Hrow _]]].
  assert (Hflag' : is_scheduled (class_row (self w')) = true)
    by (subst w'; cbn; now rewrite Hrow).
  assert (Hc : timeline_entry_cache (self w') = None) by (subst w'; reflexivity).
  assert (Hid : timeline_entry_id (class_row (self w')) = None) by (subst w'; reflexivity).
  split.
  - intros e. apply assign_entry_raises. rewrite can_be_scheduled_eq, Hflag'. reflexivity.
  - rewrite (Class_save_detached w' Hc Hid). eexists. split; [reflexivity|].
    intros e. rewrite can_be_scheduled_eq. reflexivity.
Qed.

End SchedulingSequences.

(** ** More on saving a subscription *)

Section SubscriptionSequences.
Import Django Timeline Hub.

Variable product_of : nat -> nat -> Product.

Lemma keys_unique {R : Type} (t : table R) (k : nat) (r r' : R) :
  NoDup (keys t) -> In (k, r) t -> In (k, r') t -> r = r'.
Proof.
  induction t as [|[k0 r0] t IH]; intros Hnodup Hin Hin'; [destruct Hin|].
  cbn [keys map fst] in Hnodup. apply NoDup_cons_iff in Hnodup.
  destruct Hnodup as [Hout Hnodup].
  destruct Hin as [Heq | Hin]; destruct Hin' as [Heq' | Hin'].
  - congruence.
  - injection Heq as -> ->. exfalso. apply Hout. apply (In_keys (k, r') t Hin').
  - injection Heq' as -> ->. exfalso. apply Hout. apply (In_keys (k, r) t Hin).
  - now apply IH.
Qed.

(** An [UPDATE] that writes back the stored columns changes nothing. *)
Lemma update_stored {R : Type} (t : table R) (k : nat) (r : R) :
  NoDup (keys t) -> get k t = Some r -> update k r t = t.
Proof.
  intros Hnodup Hget. apply get_In in Hget.
  unfold update. rewrite <- (map_id t) at 2. apply map_ext_in.
  intros [k' r'] Hin. rewrite has_key_pair.
  destruct (Nat.eqb_spec k' k) as [-> | _]; [|reflexivity].
  f_equal. exact (keys_unique t k r r' Hnodup Hget Hin).
Qed.

(** X8: saving a subscription object that carries a key for which no row
    is stored raises [DoesNotExist] and leaves the object and the database
    untouched; in particular no class is provisioned. *)
Theorem Subscription_save_missing_row (w : World Subscription) (k : nat) :
  sub_pk (self w) = Some k ->
  k <> 0 ->
  get k (subscriptions (db w)) = None ->
  Subscription_save product_of w = (inl DoesNotExist, w).
Proof.
  intros Hpk Hk Hget. rewrite (Subscription_save_existing product_of w k Hpk Hk).
  unfold update_classes, bind, gets, Subscription_objects_get.
  now rewrite Hpk, Hget.
Qed.

(** X9: saving a stored subscription whose columns are those of its stored
    row changes nothing at all: not the object, not a row of any table. *)
Theorem Subscription_save_unchanged (w : World Subscription) (k : nat) :
  sub_pk (self w) = Some k ->
  k <> 0 ->
  NoDup (keys (subscriptions (db w))) ->
  get k (subscriptions (db w)) = Some (sub_row (self w)) ->
  Subscription_save product_of w = (inr tt, w).
Proof.
  intros Hpk Hk Hnodup Hget. rewrite (Subscription_save_existing product_of w k Hpk Hk).
  unfold update_classes, bind, gets, Subscription_objects_get.
  rewrite Hpk, Hget, Z.eqb_refl. cbn [negb ret].
  unfold Subscription_super_save.
  rewrite Hpk, (save_base_existing k _ _ (get_some_exists k _ _ Hget)).
  rewrite (update_stored _ k _ Hnodup Hget).
  destruct w as [[pk row req] [subs cls ens]]. cbn in *. now subst.
Qed.

(** The world after the first save of a subscription. *)
Lemma Subscription_save_create_run (s : Subscription) (st : Store) :
  sub_pk s = None ->
  Subscription_save product_of (mkWorld s st)
  = (inr tt,
     mkWorld
       (mkSubscription (Some (next_pk (subscriptions st))) (sub_row s) (sub_request s))
       (with_classes
          (classes st
           ++ combine
                (seq (next_pk (classes st))
                     (length (lesson_units (product_of (product_type (sub_row s))
                                                       (product_id (sub_row s))))))
                (map (fun lesson =>
                        mkClassRow (sub_customer (sub_row s)) (sub_buy_price (sub_row s))
                                   1 false 1
                                   (lesson_content_type lesson) (lesson_pk lesson)
                                   None (Some (next_pk (subscriptions st))))
                     (lesson_units (product_of (product_type (sub_row s))
                                               (product_id (sub_row s))))))
          (with_subscriptions
             (insert (next_pk (subscriptions st)) (sub_row s) (subscriptions st)) st))).
Proof.
  intros Hpk.
  unfold Subscription_save, bind at 1 2 3, gets. cbn [self db]. rewrite Hpk.
  cbn [pk_truthy negb ret]. unfold Subscription_super_save. cbn [self db].
  rewrite Hpk. cbn [save_base]. unfold add_lessons_to_user, bind at 1, gets at 1.
  cbn [self db sub_row].
  rewrite for_each_nested, provision_loop. reflexivity.
Qed.

(** The class table after saving a stored subscription with a changed flag. *)
Lemma Subscription_save_toggle_run (s : Subscription) (st : Store) (k : nat)
      (orig : SubscriptionRow) :
  sub_pk s = Some k ->
  k <> 0 ->
  get k (subscriptions st) = Some orig ->
  sub_active orig <> sub_active (sub_row s) ->
  NoDup (keys (classes st)) ->
  (forall kr eid, In kr (classes st) -> timeline_entry_id (snd kr) = Some eid ->
                  In eid (keys (entries st))) ->
  exists st',
    Subscription_save product_of (mkWorld s st) = (inr tt, mkWorld s st')
    /\ classes st' = map (cascade (Some k) (sub_active (sub_row s))) (classes st).
Proof.
  intros Hpk Hk Hget Hne Hnodup Hfk.
  rewrite (Subscription_save_existing product_of (mkWorld s st) k Hpk Hk).
  unfold update_classes, bind at 1 2, gets at 1, Subscription_objects_get.
  cbn [self db]. rewrite Hpk, Hget.
  destruct (Z.eqb_spec (sub_active orig) (sub_active (sub_row s))) as [Heq | _];
    [contradiction|].
  cbn [negb]. unfold bind, classes_all, gets. cbn [self db].
  destruct (cascade_loop s (sub_active (sub_row s))
              (filter (linked_to (Some k)) (classes st)) st)
    as [st' [Hloop [Hcl [Hen Hsub]]]].
  - intros kr Hin. apply filter_In in Hin. now apply In_keys.
  - intros kr eid Hin Hid. apply filter_In in Hin. now apply (Hfk kr eid).
  - rewrite Hloop. unfold Subscription_super_save. cbn [self db].
    rewrite Hpk, Hsub, (save_base_existing k _ _ (get_some_exists k _ _ Hget)).
    exists (with_subscriptions (update k (sub_row s) (subscriptions st)) st'). split.
    + do 2 f_equal. destruct s. cbn in *. now subst.
    + cbn [classes with_subscriptions]. rewrite Hcl.
      apply (fold_update_filter (cascaded (sub_active (sub_row s)))
               (linked_to (Some k)) (classes st) Hnodup).
Qed.

Lemma keys_combine {R : Type} (ks : list nat) (rows : list R) :
  length ks = length rows -> keys (combine ks rows) = ks.
Proof.
  revert rows. induction ks as [|k ks IH]; intros [|r rows] Hlen; cbn in *;
    try discriminate; [reflexivity|].
  f_equal. apply IH. now injection Hlen.
Qed.

Lemma keys_below_next {R : Type} (t : table R) (k : nat) :
  In k (keys t) -> k < next_pk t.
Proof.
  intros Hin. unfold next_pk.
  pose proof (list_max_le (keys t) (list_max (keys t))) as [Hall _].
  specialize (Hall (Nat.le_refl _)). rewrite Forall_forall in Hall.
  specialize (Hall _ Hin). lia.
Qed.

(** X10: creating a subscription and then saving the same object with
    another [active] value, in a database with unique class keys and entry
    references that resolve, ends with every provisioned class row carrying
    the new value and no class row added by the second save. *)
Theorem create_then_toggle (w : World Subscription) (a : Z) :
  sub_pk (self w) = None ->
  a <> sub_active (sub_row (self w)) ->
  NoDup (keys (classes (db w))) ->
  (forall kr eid, In kr (classes (db w)) -> timeline_entry_id (snd kr) = Some eid ->
                  In eid (keys (entries (db w)))) ->
  let k := next_pk (subscriptions (db w)) in
  let units := lesson_units (product_of (product_type (sub_row (self w)))
                                        (product_id (sub_row (self w)))) in
  exists w1 w2,
    Subscription_save product_of w = (inr tt, w1)
    /\ Subscription_save product_of (mkWorld (set_sub_active a (self w1)) (db w1))
       = (inr tt, w2)
    /\ classes (db w2)
       = map (cascade (Some k) a) (classes (db w))
         ++ combine (seq (next_pk (classes (db w))) (length units))
                    (map (fun lesson =>
                            mkClassRow (sub_customer (sub_row (self w)))
                                       (sub_buy_price (sub_row (self w)))
                                       a false 1
                                       (lesson_content_type lesson) (lesson_pk lesson)
                                       None (Some k))
                         units)
    /\ length (classes (db w2)) = length (classes (db w1)).
Proof.
  intros Hpk Hne Hnodup Hfk k units. destruct w as [s st]. cbn [self db] in *.
  rewrite (Subscription_save_create_run s st Hpk). fold k. fold units.
  set (rows := map (fun lesson =>
                      mkClassRow (sub_customer (sub_row s)) (sub_buy_price (sub_row s))
                                 1 false 1 (lesson_content_type lesson)
                                 (lesson_pk lesson) None (Some k)) units).
  set (new := combine (seq (next_pk (classes st)) (length units)) rows).
  set (st1 := with_classes (classes st ++ new)
                (with_subscriptions (insert k (sub_row s) (subscriptions st)) st)).
  set (s1 := mkSubscription (Some k) (sub_row s) (sub_request s)).
  assert (Hkeys : keys new = seq (next_pk (classes st)) (length units))
    by (apply keys_combine; unfold rows; now rewrite length_seq, length_map).
  destruct (Subscription_save_toggle_run (set_sub_active a s1) st1 k (sub_row s))
    as [st2 [Hrun Hcl]].
  - reflexivity.
  - unfold k, next_pk. discriminate.
  - apply get_insert_fresh, next_pk_fresh.
  - cbn. congruence.
  - cbn [st1 classes with_classes]. unfold keys. rewrite map_app. fold (keys new).
    rewrite Hkeys. apply NoDup_app; [exact Hnodup | apply seq_NoDup |].
    intros key Hin Hseq. apply in_seq in Hseq.
    pose proof (keys_below_next (classes st) key Hin). lia.
  - cbn [st1 classes with_classes entries with_subscriptions].
    intros kr eid Hin Hid. apply in_app_or in Hin. destruct Hin as [Hin | Hin].
    + exact (Hfk kr eid Hin Hid).
    + exfalso. unfold new in Hin. destruct kr as [key row].
      apply in_combine_r in Hin. unfold rows in Hin. apply in_map_iff in Hin.
      destruct Hin as [lesson [<- _]]. discriminate.
  - exists (mkWorld s1 st1), (mkWorld (set_sub_active a s1) st2).
    split; [reflexivity|]. split; [exact Hrun|]. cbn [db].
    rewrite Hcl. cbn [st1 classes with_classes set_sub_active sub_row sub_active].
    rewrite map_app. split.
    + f_equal. unfold new, rows. clear.
      generalize (next_pk (classes st)). induction units as [|lesson units IH];
        intros n; [reflexivity|].
      cbn [length seq map combine]. rewrite IH. f_equal.
      unfold cascade, linked_to. cbn. now rewrite Nat.eqb_refl.
    + now rewrite !length_app, !length_map.
Qed.

End SubscriptionSequences.

(** ** Scheduling without a prepared entry *)

Section ScheduleFacts.
Import Django Timeline Hub.

Variable is_free : Store -> Entry -> bool.
Variable is_fitting_working_hours : Store -> Entry -> bool.
Variable timeline_entry_required : nat -> bool.
Variable unset_end : Z.

Local Abbreviation can_be_scheduled :=
  (Hub.can_be_scheduled is_free is_fitting_working_hours).
Local Abbreviation schedule :=
  (Hub.schedule is_free is_fitting_working_hours timeline_entry_required unset_end).
Local Abbreviation new_entry := (Hub.new_entry unset_end).

Lemma schedule_refuses_entry_lessons_aux (teacher : nat) (date : Z)
      (allow_overlap_ allow_besides : bool) (w : World BoughtClass) :
  timeline_entry_required (lesson_type (class_row (self w))) = true ->
  schedule teacher date allow_overlap_ allow_besides w = (inl CannotBeScheduled, w).
Proof.
  intros Hreq. unfold Hub.schedule, bind, gets. cbn [lesson_of lesson_content_type].
  now rewrite Hreq.
Qed.

(** X11: for a lesson whose type requires a timeline entry [schedule]
    raises [CannotBeScheduled] whatever the teacher, the date and the flags,
    and changes neither the class nor the database. *)
Theorem schedule_refuses_entry_lessons (teacher : nat) (date : Z)
        (allow_overlap_ allow_besides : bool) (w : World BoughtClass) :
  timeline_entry_required (lesson_type (class_row (self w))) = true ->
  schedule teacher date allow_overlap_ allow_besides w = (inl CannotBeScheduled, w).
Proof.
  intros Hreq. unfold Hub.schedule, bind, gets. cbn [lesson_of lesson_content_type].
  now rewrite Hreq.
Qed.

Lemma schedule_outcome_aux (teacher : nat) (date : Z)
        (allow_overlap_ allow_besides : bool) (w : World BoughtClass) :
  timeline_entry_required (lesson_type (class_row (self w))) = false ->
  let entry := new_entry teacher (lesson_of (self w)) date allow_besides allow_overlap_ in
  let ok := negb (is_scheduled (class_row (self w)))
            && is_free (db w) entry
            && (allow_besides || is_fitting_working_hours (db w) entry) in
  schedule teacher date allow_overlap_ allow_besides w
  = if ok
    then (inr tt, mkWorld (assign_timeline_entry (Some entry) (self w)) (db w))
    else (inl CannotBeScheduled, w).
Proof.
  intros Hreq entry ok. unfold Hub.schedule, bind at 1, gets at 1.
  cbn [lesson_of lesson_content_type]. rewrite Hreq. fold (lesson_of (self w)).
  fold entry.
  assert (Hcan : can_be_scheduled entry w = ok).
  { rewrite can_be_scheduled_eq. unfold ok, entry, Hub.new_entry, lesson_of.
    cbn [entry_lesson_type lesson_content_type allow_besides_working_hours].
    rewrite Nat.eqb_refl. now rewrite andb_true_r. }
  destruct ok.
  - now apply assign_entry_success.
  - now apply assign_entry_raises.
Qed.


(** X12: for a lesson that needs no timeline entry [schedule] returns
    exactly when the class is not flagged scheduled, the new entry is free
    and it fits the working hours or may lie besides them; the lesson-type
    check cannot fail, the entry being built from the class's own lesson.
    On return the entry, still without a key, sits on the object and the
    database is as it was; otherwise [CannotBeScheduled] is raised and
    nothing has changed. *)
Theorem schedule_outcome (teacher : nat) (date : Z)
        (allow_overlap_ allow_besides : bool) (w : World BoughtClass) :
  timeline_entry_required (lesson_type (class_row (self w))) = false ->
  let entry := new_entry teacher (lesson_of (self w)) date allow_besides allow_overlap_ in
  let ok := negb (is_scheduled (class_row (self w)))
            && is_free (db w) entry
            && (allow_besides || is_fitting_working_hours (db w) entry) in
  schedule teacher date allow_overlap_ allow_besides w
  = if ok
    then (inr tt, mkWorld (assign_timeline_entry (Some entry) (self w)) (db w))
    else (inl CannotBeScheduled, w).
Proof.
  intros Hreq entry ok. unfold Hub.schedule, bind at 1, gets at 1.
  cbn [lesson_of lesson_content_type]. rewrite Hreq. fold (lesson_of (self w)).
  fold entry.
  assert (Hcan : can_be_scheduled entry w = ok).
  { rewrite can_be_scheduled_eq. unfold ok, entry, Hub.new_entry, lesson_of.
    cbn [entry_lesson_type lesson_content_type allow_besides_working_hours].
    rewrite Nat.eqb_refl. now rewrite andb_true_r. }
  destruct ok.
  - now apply assign_entry_success.
  - now apply assign_entry_raises.
Qed.

(** X13: [schedule] followed by [save] adds exactly one entry row, under the
    next free key and after the rows that were there, which all stay; the
    row is for that teacher and start and the class's lesson, and the class
    row refers to it and is flagged scheduled.  Nothing is said of the end
    of the stored entry. *)
Theorem schedule_then_save (teacher : nat) (date : Z)
        (allow_overlap_ allow_besides : bool) (w w1 : World BoughtClass) :
  schedule teacher date allow_overlap_ allow_besides w = (inr tt, w1) ->
  let k := next_pk (entries (db w)) in
  exists w2 row e,
    Class_save w1 = (inr tt, w2)
    /\ keys (entries (db w2)) = keys (entries (db w)) ++ [k]
    /\ (forall kr, In kr (entries (db w)) -> In kr (entries (db w2)))
    /\ get k (entries (db w2)) = Some e
    /\ entry_pk e = Some k
    /\ entry_teacher e = teacher
    /\ entry_lesson_type e = lesson_type (class_row (self w))
    /\ entry_lesson_id e = lesson_id (class_row (self w))
    /\ entry_start e = date
    /\ (exists kc, class_pk (self w2) = Some kc
                   /\ get kc (classes (db w2)) = Some row)
    /\ timeline_entry_id row = Some k
    /\ is_scheduled row = true.
Proof.
  intros Hrun k.
  destruct (timeline_entry_required (lesson_type (class_row (self w)))) eqn:Hreq.
  - rewrite (schedule_refuses_entry_lessons_aux teacher date allow_overlap_ allow_besides
               w Hreq) in Hrun. discriminate.
  - rewrite (schedule_outcome_aux teacher date allow_overlap_ allow_besides w Hreq) in Hrun.
    cbv zeta in Hrun.
    destruct (_ && _) in Hrun; [|discriminate].
    apply (f_equal snd) in Hrun. cbn [snd] in Hrun. subst w1.
    destruct (Class_save_new_entry
                (mkWorld (assign_timeline_entry
                            (Some (new_entry teacher (lesson_of (self w)) date
                                             allow_besides allow_overlap_)) (self w))
                         (db w))
                (new_entry teacher (lesson_of (self w)) date allow_besides allow_overlap_)
                eq_refl eq_refl)
      as [w2 [Hsave [Hen [_ [kc [row [Hpk [Hget [Hid Hflag]]]]]]]]].
    cbn [db] in Hen. fold k in Hen.
    exists w2, row,
      (set_entry_pk k (new_entry teacher (lesson_of (self w)) date
                                 allow_besides allow_overlap_)).
    split; [exact Hsave|].
    split; [rewrite Hen; apply keys_insert|].
    split; [intros kr Hin; rewrite Hen; unfold insert; apply in_or_app; now left|].
    split; [rewrite Hen; apply get_insert_fresh, next_pk_fresh|].
    split; [reflexivity|]. split; [reflexivity|]. split; [reflexivity|].
    split; [reflexivity|]. split; [reflexivity|].
    split; [now exists kc|]. now split.
Qed.

End ScheduleFacts.

(** ** The manager of bought classes *)

Section PlanningFacts.
Import Django Timeline Hub.
Local Open Scope Z_scope.

Variable sort_order : nat -> option Z.

Lemma dict_set_keys (k : Z) (v : nat) (d : list (Z * nat)) :
  dict_keys (dict_set k v d)
  = if existsb (Z.eqb k) (dict_keys d) then dict_keys d else dict_keys d ++ [k].
Proof.
  induction d as [|[k' v'] d IH]; cbn [dict_set dict_keys map existsb fst]; [reflexivity|].
  rewrite (Z.eqb_sym k k'). destruct (Z.eqb_spec k' k) as [-> | Hne]; cbn [orb].
  - reflexivity.
  - cbn [map fst]. fold (dict_keys (dict_set k v d)). rewrite IH.
    fold (dict_keys d). now destruct (existsb (Z.eqb k) (dict_keys d)).
Qed.

Lemma dict_set_has_key (k : Z) (v : nat) (d : list (Z * nat)) :
  In k (dict_keys (dict_set k v d)).
Proof.
  rewrite dict_set_keys. destruct (existsb (Z.eqb k) (dict_keys d)) eqn:Hex.
  - apply existsb_exists in Hex. destruct Hex as [k' [Hin Heq]].
    apply Z.eqb_eq in Heq. now subst.
  - apply in_or_app. right. now left.
Qed.

Lemma dict_set_keeps_keys (k k' : Z) (v : nat) (d : list (Z * nat)) :
  In k' (dict_keys d) -> In k' (dict_keys (dict_set k v d)).
Proof.
  intros Hin. rewrite dict_set_keys.
  destruct (existsb (Z.eqb k) (dict_keys d)); [exact Hin|].
  apply in_or_app. now left.
Qed.

Lemma dict_set_NoDup (k : Z) (v : nat) (d : list (Z * nat)) :
  NoDup (dict_keys d) -> NoDup (dict_keys (dict_set k v d)).
Proof.
  intros Hnodup. rewrite dict_set_keys.
  destruct (existsb (Z.eqb k) (dict_keys d)) eqn:Hex; [exact Hnodup|].
  apply NoDup_app; [exact Hnodup | repeat constructor; intros [] |].
  intros k' Hin [<- | []].
  assert (Hyes : existsb (Z.eqb k) (dict_keys d) = true)
    by (apply existsb_exists; exists k; split; [exact Hin | apply Z.eqb_refl]).
  congruence.
Qed.

Lemma dict_set_In (k k' : Z) (v v' : nat) (d : list (Z * nat)) :
  In (k', v') (dict_set k v d) -> (k', v') = (k, v) \/ In (k', v') d.
Proof.
  induction d as [|[k0 v0] d IH]; cbn [dict_set].
  - intros [Heq | []]. now left.
  - destruct (k0 =? k).
    + intros [Heq | Hin]; [now left | right; now right].
    + intros [Heq | Hin]; [right; now left|].
      destruct (IH Hin) as [Heq | Hin']; [now left | right; now right].
Qed.

Lemma dict_get_In (k : Z) (v : nat) (d : list (Z * nat)) :
  dict_get k d = Some v -> In (k, v) d.
Proof.
  induction d as [|[k0 v0] d IH]; cbn [dict_get]; [discriminate|].
  destruct (Z.eqb_spec k0 k) as [-> | _].
  - intros [= ->]. now left.
  - intros Hget. right. now apply IH.
Qed.

Lemma dict_get_key (k : Z) (d : list (Z * nat)) :
  In k (dict_keys d) -> exists v, dict_get k d = Some v.
Proof.
  induction d as [|[k0 v0] d IH]; cbn [dict_keys map fst dict_get]; [intros []|].
  destruct (Z.eqb_spec k0 k) as [-> | Hne].
  - intros _. now exists v0.
  - intros [Heq | Hin]; [congruence | now apply IH].
Qed.

(** What the loop over the content types leaves in the dict. *)
Lemma note_order_fold (types : list nat) :
  forall d,
    NoDup (dict_keys d) ->
    NoDup (dict_keys (fold_left (note_order sort_order) types d))
    /\ (forall o t, In (o, t) (fold_left (note_order sort_order) types d) ->
                    In (o, t) d
                    \/ (In t types /\ sort_order t = Some o /\ o <> 0))
    /\ (forall o, In o (dict_keys d) ->
                  In o (dict_keys (fold_left (note_order sort_order) types d)))
    /\ (forall o t, In t types -> sort_order t = Some o -> o <> 0 ->
                    In o (dict_keys (fold_left (note_order sort_order) types d))).
Proof.
  induction types as [|t0 types IH]; intros d Hnodup; cbn [fold_left].
  - repeat split; auto. intros o t [].
  - assert (Hnodup' : NoDup (dict_keys (note_order sort_order d t0))).
    { unfold note_order. destruct (sort_order t0) as [o0|]; [|exact Hnodup].
      destruct (o0 =? 0); [exact Hnodup | now apply dict_set_NoDup]. }
    destruct (IH _ Hnodup') as [Hnd [Hsound [Hkeep Hcomplete]]].
    split; [exact Hnd|]. split; [|split].
    + intros o t Hin. destruct (Hsound o t Hin) as [Hold | [Hin' Ht]].
      * unfold note_order in Hold. destruct (sort_order t0) as [o0|] eqn:Ho0; [|now left].
        destruct (Z.eqb_spec o0 0) as [_ | Hnz]; [now left|].
        apply dict_set_In in Hold. destruct Hold as [[= -> ->] | Hold]; [|now left].
        right. split; [now left | now split].
      * right. split; [now right | exact Ht].
    + intros o Hin. apply Hkeep. unfold note_order.
      destruct (sort_order t0) as [o0|]; [|exact Hin].
      destruct (o0 =? 0); [exact Hin | now apply dict_set_keeps_keys].
    + intros o t [<- | Hin] Ho Hnz.
      * apply Hkeep. unfold note_order. rewrite Ho.
        destruct (Z.eqb_spec o 0); [contradiction | apply dict_set_has_key].
      * now apply (Hcomplete o t).
Qed.

Lemma insert_sorted_In (x y : Z) (l : list Z) :
  In y (insert_sorted x l) <-> y = x \/ In y l.
Proof.
  induction l as [|z l IH]; cbn [insert_sorted].
  - cbn. intuition.
  - destruct (x <=? z); cbn [In]; [intuition | rewrite IH; intuition].
Qed.

Lemma sorted_In (y : Z) (l : list Z) : In y (sorted l) <-> In y l.
Proof.
  induction l as [|x l IH]; cbn [sorted fold_right]; [reflexivity|].
  fold (sorted l). rewrite insert_sorted_In, IH. cbn. intuition.
Qed.

Lemma insert_sorted_strict (x : Z) (l : list Z) :
  StronglySorted Z.lt l -> ~ In x l -> StronglySorted Z.lt (insert_sorted x l).
Proof.
  induction l as [|y l IH]; intros Hsorted Hout; cbn [insert_sorted].
  - repeat constructor.
  - apply StronglySorted_inv in Hsorted. destruct Hsorted as [Hrest Hall].
    destruct (Z.leb_spec x y) as [Hle | Hgt].
    + assert (Hlt : x < y) by (assert (x <> y) by (intros ->; apply Hout; now left); lia).
      constructor; [now constructor|].
      constructor; [exact Hlt|]. rewrite Forall_forall in *. intros z Hz.
      specialize (Hall z Hz). lia.
    + constructor.
      * apply IH; [exact Hrest|]. intros Hin. apply Hout. now right.
      * rewrite Forall_forall in *. intros z Hz. apply insert_sorted_In in Hz.
        destruct Hz as [-> | Hz]; [lia | now apply Hall].
Qed.

(** Distinct integers come out of [sorted] strictly increasing. *)
Lemma sorted_strict (l : list Z) : NoDup l -> StronglySorted Z.lt (sorted l).
Proof.
  induction l as [|x l IH]; intros Hnodup; cbn [sorted fold_right]; [constructor|].
  fold (sorted l). apply NoDup_cons_iff in Hnodup. destruct Hnodup as [Hout Hnodup].
  apply insert_sorted_strict; [now apply IH|]. now rewrite sorted_In.
Qed.

Local Abbreviation bought_lesson_types := (Hub.bought_lesson_types sort_order).

(** The content types the loop visits: those of the table that are the
    lesson type of a class without an entry. *)
Lemma found_In (content_types : list nat) (queryset : table ClassRow) (t : nat) :
  In t (content_types_in (unscheduled_types queryset) content_types)
  <-> In t content_types
      /\ exists kr, In kr queryset /\ timeline_entry_id (snd kr) = None
                    /\ lesson_type (snd kr) = t.
Proof.
  unfold content_types_in, unscheduled_types.
  rewrite filter_In, existsb_exists. split.
  - intros [Hin [t' [Ht' Heq]]]. apply Nat.eqb_eq in Heq. subst t'.
    apply nodup_In, in_map_iff in Ht'. destruct Ht' as [kr [Hty Hkr]].
    apply filter_In in Hkr. destruct Hkr as [Hkr Hun].
    split; [exact Hin|]. exists kr. split; [exact Hkr|]. split; [|exact Hty].
    unfold unscheduled in Hun. now destruct (timeline_entry_id (snd kr)).
  - intros [Hin [kr [Hkr [Hid Hty]]]]. split; [exact Hin|].
    exists t. split; [|apply Nat.eqb_refl].
    apply nodup_In, in_map_iff. exists kr. split; [exact Hty|].
    apply filter_In. split; [exact Hkr|]. unfold unscheduled. now rewrite Hid.
Qed.

Lemma listed_In (d : list (Z * nat)) (t : nat) :
  In t (flat_map (fun i => match dict_get i d with Some t => [t] | None => [] end)
                 (sorted (dict_keys d)))
  <-> exists o, dict_get o d = Some t.
Proof.
  rewrite in_flat_map. split.
  - intros [o [_ Hin]]. exists o. destruct (dict_get o d) as [t'|]; [|destruct Hin].
    destruct Hin as [-> | []]. reflexivity.
  - intros [o Hget]. exists o. split.
    + apply sorted_In. apply dict_get_In in Hget. unfold dict_keys.
      apply in_map_iff. now exists (o, t).
    + rewrite Hget. now left.
Qed.

Lemma bought_lesson_types_In (content_types : list nat) (queryset : table ClassRow)
      (t : nat) :
  In t (bought_lesson_types content_types queryset) ->
  exists o, sort_order t = Some o /\ o <> 0
            /\ In t content_types
            /\ exists kr, In kr queryset /\ timeline_entry_id (snd kr) = None
                          /\ lesson_type (snd kr) = t.
Proof.
  unfold Hub.bought_lesson_types. intros Hin. apply listed_In in Hin.
  destruct Hin as [o Hget]. apply dict_get_In in Hget.
  destruct (note_order_fold
              (content_types_in (unscheduled_types queryset) content_types)
              [] (NoDup_nil _)) as [_ [Hsound _]].
  destruct (Hsound o t Hget) as [[] | [Hfound [Ho Hnz]]].
  apply found_In in Hfound. exists o. tauto.
Qed.

(** X14: [bought_lesson_types] lists only content types that are the lesson
    type of some class without a timeline entry and whose model declares a
    non-zero sort order; a customer whose classes are all scheduled gets the
    empty list. *)
Theorem bought_lesson_types_sound (content_types : list nat)
        (queryset : table ClassRow) :
  (forall t, In t (bought_lesson_types content_types queryset) ->
             In t content_types
             /\ (exists kr, In kr queryset /\ timeline_entry_id (snd kr) = None
                            /\ lesson_type (snd kr) = t)
             /\ exists o, sort_order t = Some o /\ o <> 0)
  /\ ((forall kr, In kr queryset -> timeline_entry_id (snd kr) <> None) ->
      bought_lesson_types content_types queryset = []).
Proof.
  split.
  - intros t Hin. destruct (bought_lesson_types_In _ _ t Hin) as [o [Ho [Hnz [Hct Hkr]]]].
    split; [exact Hct|]. split; [exact Hkr|]. now exists o.
  - intros Hall. destruct (bought_lesson_types content_types queryset) as [|t l] eqn:Hres;
      [reflexivity|].
    destruct (bought_lesson_types_In content_types queryset t) as [_ [_ [_ [_ Hkr]]]].
    + rewrite Hres. now left.
    + destruct Hkr as [kr [Hin [Hid _]]]. now elim (Hall kr Hin).
Qed.

(** X15: the list comes out strictly increasing in the declared sort
    order, so it holds no content type twice and no two of the same order. *)
Theorem bought_lesson_types_ordered (content_types : list nat)
        (queryset : table ClassRow) :
  StronglySorted (sorts_before sort_order) (bought_lesson_types content_types queryset)
  /\ NoDup (bought_lesson_types content_types queryset).
Proof.
  assert (Hsorted : StronglySorted (sorts_before sort_order)
                      (bought_lesson_types content_types queryset)).
  { unfold Hub.bought_lesson_types.
    set (d := fold_left (note_order sort_order) _ []).
    destruct (note_order_fold
                (content_types_in (unscheduled_types queryset) content_types)
                [] (NoDup_nil _))
      as [Hnd [Hsound _]]. fold d in Hnd, Hsound.
    assert (Horder : forall o t, dict_get o d = Some t -> sort_order t = Some o).
    { intros o t Hget. apply dict_get_In in Hget.
      destruct (Hsound o t Hget) as [[] | [_ [Ho _]]]. exact Ho. }
    pose proof (sorted_strict (dict_keys d) Hnd) as Hks.
    induction Hks as [|o ks Hks IH Hall]; cbn [flat_map]; [constructor|].
    destruct (dict_get o d) as [t|] eqn:Hget; cbn [app]; [|exact IH].
    constructor; [exact IH|]. rewrite Forall_forall. intros t' Hin.
    apply in_flat_map in Hin. destruct Hin as [o' [Ho' Hin]].
    destruct (dict_get o' d) as [t''|] eqn:Hget'; [|destruct Hin].
    destruct Hin as [-> | []].
    unfold sorts_before. rewrite (Horder o t Hget), (Horder o' t' Hget').
    rewrite Forall_forall in Hall. now apply Hall. }
  split; [exact Hsorted|].
  induction Hsorted as [|t l Hl IH Hall]; constructor; [|exact IH].
  intros Hin. rewrite Forall_forall in Hall. specialize (Hall t Hin).
  unfold sorts_before in Hall. destruct (sort_order t); [lia | exact Hall].
Qed.

(** X16: every non-zero sort order declared by the type of some class
    without an entry is represented in the list by exactly the types the
    loop kept: some listed type has that order, and it is the type itself
    when no other candidate shares the order. *)
Theorem bought_lesson_types_complete (content_types : list nat)
        (queryset : table ClassRow) (t : nat) (o : Z) :
  In t content_types ->
  (exists kr, In kr queryset /\ timeline_entry_id (snd kr) = None
              /\ lesson_type (snd kr) = t) ->
  sort_order t = Some o ->
  o <> 0 ->
  (exists t', In t' (bought_lesson_types content_types queryset)
              /\ sort_order t' = Some o)
  /\ ((forall t', In t' content_types -> sort_order t' = Some o -> t' = t) ->
      In t (bought_lesson_types content_types queryset)).
Proof.
  intros Hct Hkr Ho Hnz.
  assert (Hsome : exists t', In t' (bought_lesson_types content_types queryset)
                             /\ sort_order t' = Some o).
  { unfold Hub.bought_lesson_types.
    set (d := fold_left (note_order sort_order) _ []).
    destruct (note_order_fold
                (content_types_in (unscheduled_types queryset) content_types)
                [] (NoDup_nil _))
      as [_ [Hsound [_ Hcomplete]]]. fold d in Hsound, Hcomplete.
    assert (Hkey : In o (dict_keys d)).
    { apply (Hcomplete o t); [|exact Ho | exact Hnz]. apply found_In. now split. }
    destruct (dict_get_key o d Hkey) as [t' Hget]. exists t'. split.
    - apply listed_In. now exists o.
    - apply dict_get_In in Hget. destruct (Hsound o t' Hget) as [[] | [_ [Ho' _]]].
      exact Ho'. }
  split; [exact Hsome|]. intros Hunique. destruct Hsome as [t' [Hin Ho']].
  destruct (bought_lesson_types_In _ _ t' Hin) as [_ [_ [_ [Hct' _]]]].
  now rewrite <- (Hunique t' Hct' Ho').
Qed.

(** X17: [dates_for_planning] yields seven moments: the current one and
    the same time of day on each of the next six days. *)
Theorem dates_for_planning_week (now : Z) :
  dates_for_planning now
  = map (fun i => now + Z.of_nat i * Teachers.minutes_per_day) (seq 0 7)
  /\ length (dates_for_planning now) = 7%nat
  /\ hd_error (dates_for_planning now) = Some now
  /\ (forall d, In d (dates_for_planning now) ->
                 now <= d < now + 7 * Teachers.minutes_per_day).
Proof.
  assert (Hlist : dates_for_planning now
                  = map (fun i => now + Z.of_nat i * Teachers.minutes_per_day) (seq 0 7)).
  { unfold dates_for_planning. rewrite all_slots_grid by reflexivity.
    replace (now + 7 * Teachers.minutes_per_day - now)
      with (7 * Teachers.minutes_per_day) by lia.
    reflexivity. }
  split; [exact Hlist|]. rewrite Hlist. split; [reflexivity|]. split.
  - cbn. f_equal. lia.
  - intros d Hin. apply in_map_iff in Hin. destruct Hin as [i [<- Hi]].
    apply in_seq in Hi. unfold Teachers.minutes_per_day. lia.
Qed.

End PlanningFacts.

(** ** Customers and admin filters *)

Section CustomerFacts.
Import Crm.

(** X18: a customer's name and email are read from one place only: from
    the linked user when there is one, whatever the CRM columns hold, and
    from the CRM columns otherwise; a full name never mixes the two. *)
Theorem customer_identity_source (c : Customer) :
  (forall u, user c = Some u ->
             forall fn ln em,
               let c' := mkCustomer (Some u) fn ln em in
               full_name c' = full_name c /\ email c' = email c
               /\ first_name c = user_first_name u /\ last_name c = user_last_name u
               /\ email c = user_email u)
  /\ (user c = None ->
      first_name c = customer_first_name c /\ last_name c = customer_last_name c
      /\ email c = customer_email c)
  /\ Customer_str c = full_name c.
Proof.
  split; [|split].
  - intros u Hu fn ln em c'.
    unfold full_name, first_name, last_name, email, get_user_property.
    rewrite Hu. cbn. repeat split.
  - intros Hnone. unfold first_name, last_name, email, get_user_property.
    rewrite Hnone. repeat split.
  - reflexivity.
Qed.

End CustomerFacts.

Section FilterFacts.
Import MarketAdmin.

Variable Row : Type.
Variable subscription : Row -> option nat.
Variable is_fully_used : Row -> bool.

Lemma filter_split (p : Row -> bool) (l : list Row) :
  Permutation l (filter p l ++ filter (fun r => negb (p r)) l).
Proof.
  induction l as [|r l IH]; cbn [filter]; [constructor|].
  destruct (p r); cbn [negb app].
  - now constructor.
  - now apply Permutation_cons_app.
Qed.

(** X19: each of the two admin filters splits a queryset: every class is
    listed under exactly one of its two choices, as often as it occurs, and
    "single purchase" lists exactly the classes without a subscription. *)
Theorem admin_filters_split (queryset : list Row) :
  Permutation queryset
    (BuySubscriptionFilter_t Row subscription queryset
     ++ BuySubscriptionFilter_f Row subscription queryset)
  /\ (forall r, In r (BuySubscriptionFilter_t Row subscription queryset)
                <-> In r queryset /\ subscription r = None)
  /\ (forall r, In r (BuySubscriptionFilter_f Row subscription queryset)
                <-> In r queryset /\ subscription r <> None)
  /\ Permutation queryset
       (AvailableFilter_t Row is_fully_used queryset
        ++ AvailableFilter_f Row is_fully_used queryset)
  /\ (forall r, In r (AvailableFilter_t Row is_fully_used queryset) ->
                In r (AvailableFilter_f Row is_fully_used queryset) -> False).
Proof.
  split; [apply filter_split|]. split; [|split; [|split]].
  - intros r. unfold BuySubscriptionFilter_t, isnull. rewrite filter_In.
    destruct (subscription r); intuition congruence.
  - intros r. unfold BuySubscriptionFilter_f, isnull. rewrite filter_In.
    destruct (subscription r); cbn; intuition congruence.
  - unfold AvailableFilter_t, AvailableFilter_f.
    eapply Permutation_trans; [apply (filter_split (fun r => negb (is_fully_used r)))|].
    apply Permutation_app_head. erewrite filter_ext; [reflexivity|].
    intros r. cbn. now rewrite negb_involutive.
  - intros r Ht Hf. unfold AvailableFilter_t, AvailableFilter_f in *.
    apply filter_In in Ht, Hf. destruct Ht as [_ Ht], Hf as [_ Hf].
    rewrite Hf in Ht. discriminate.
Qed.

End FilterFacts.

(** * More worked examples *)

Section MoreExamples.
Import Django Timeline Hub.

Lemma Class_save_idempotent_witness :
  Class_save scheduled_world = (inr tt, scheduled_world).
Proof.
  apply (Class_save_idempotent assigned_world scheduled_world). reflexivity.
Defined.

Lemma Class_save_stores_new_entry_once_witness :
  exists w',
    Class_save assigned_world = (inr tt, w')
    /\ entries (db w') = [(1, set_entry_pk 1 sample_entry)].
Proof.
  destruct (Class_save_stores_new_entry_once assigned_world sample_entry eq_refl eq_refl)
    as [w' [Hrun [Hen _]]].
  exists w'. split; [exact Hrun | exact Hen].
Defined.

Lemma assign_entry_twice_witness :
  bind (assign_entry (always true) (always true) sample_entry)
       (fun _ => assign_entry (always true) (always true) other_entry) sample_world
  = assign_entry (always true) (always true) other_entry sample_world.
Proof.
  destruct (assign_entry_twice (always true) (always true) sample_entry other_entry
              sample_world eq_refl) as [_ [Hok _]].
  apply Hok. reflexivity.
Defined.

Lemma assign_entry_after_save_refused_witness :
  exists w2,
    bind (assign_entry (always true) (always true) sample_entry) (fun _ => Class_save)
         sample_world = (inr tt, w2)
    /\ assign_entry (always true) (always true) other_entry w2
       = (inl CannotBeScheduled, w2).
Proof.
  destruct (assign_entry_after_save_refused (always true) (always true) sample_entry
              sample_world eq_refl) as [w2 [Hrun Hno]].
  exists w2. split; [exact Hrun | apply Hno].
Defined.

Lemma unschedule_twice_witness :
  unschedule (snd (unschedule scheduled_world))
  = (inl CannotBeUnscheduled, snd (unschedule scheduled_world)).
Proof.
  apply (unschedule_twice scheduled_world). reflexivity.
Defined.

Lemma reassign_needs_save_witness :
  assign_entry (always true) (always true) other_entry (snd (unschedule scheduled_world))
  = (inl CannotBeScheduled, snd (unschedule scheduled_world)).
Proof.
  destruct (reassign_needs_save (always true) (always true) scheduled_world
              (snd (unschedule scheduled_world)) eq_refl eq_refl) as [Hno _].
  apply Hno.
Defined.

Lemma Subscription_save_missing_row_witness :
  Subscription_save sample_catalog orphan_subscription
  = (inl DoesNotExist, orphan_subscription).
Proof.
  apply (Subscription_save_missing_row sample_catalog orphan_subscription 7).
  - reflexivity.
  - discriminate.
  - reflexivity.
Defined.

Lemma Subscription_save_unchanged_witness :
  Subscription_save sample_catalog same_subscription = (inr tt, same_subscription).
Proof.
  apply (Subscription_save_unchanged sample_catalog same_subscription 1).
  - reflexivity.
  - discriminate.
  - cbn. repeat (constructor; [cbn; lia|]). constructor.
  - reflexivity.
Defined.

Lemma create_then_toggle_witness :
  exists w1 w2,
    Subscription_save sample_catalog new_subscription = (inr tt, w1)
    /\ Subscription_save sample_catalog (mkWorld (set_sub_active 0 (self w1)) (db w1))
       = (inr tt, w2)
    /\ length (classes (db w2)) = length (classes (db w1)).
Proof.
  destruct (create_then_toggle sample_catalog new_subscription 0%Z)
    as [w1 [w2 [Hrun1 [Hrun2 [_ Hlen]]]]].
  - reflexivity.
  - discriminate.
  - cbn. repeat (constructor; [cbn; lia|]). constructor.
  - intros kr eid [<- | []]. cbn. discriminate.
  - exists w1, w2. split; [exact Hrun1|]. split; [exact Hrun2 | exact Hlen].
Defined.

Example toggled_rows :
  map (fun kr => (fst kr, active (snd kr)))
      (classes (db (snd (Subscription_save sample_catalog
         (mkWorld (set_sub_active 0
                     (self (snd (Subscription_save sample_catalog new_subscription))))
                  (db (snd (Subscription_save sample_catalog new_subscription))))))))
  = [(1, 1%Z); (2, 0%Z); (3, 0%Z); (4, 0%Z)].
Proof. reflexivity. Qed.

Lemma schedule_refuses_entry_lessons_witness :
  schedule (always true) (always true) (fun t => t =? 3) 0%Z 7 1000%Z true false
           sample_world
  = (inl CannotBeScheduled, sample_world).
Proof.
  apply (schedule_refuses_entry_lessons (always true) (always true) (fun t => t =? 3)
           0%Z 7 1000%Z true false sample_world).
  reflexivity.
Defined.

Lemma schedule_outcome_witness :
  schedule (always true) (always false) (fun t => t =? 4) 0%Z 7 1000%Z true false
           sample_world
  = (inl CannotBeScheduled, sample_world)
  /\ fst (schedule (always true) (always false) (fun t => t =? 4) 0%Z 7 1000%Z true true
                   sample_world) = inr tt.
Proof.
  split.
  - apply (schedule_outcome (always true) (always false) (fun t => t =? 4) 0%Z
             7 1000%Z true false sample_world). reflexivity.
  - reflexivity.
Defined.

Lemma schedule_then_save_witness :
  exists w2 e,
    Class_save (snd (schedule (always true) (always true) (fun t => t =? 4) 0%Z
                              7 1000%Z true false sample_world)) = (inr tt, w2)
    /\ keys (entries (db w2)) = [1]
    /\ get 1 (entries (db w2)) = Some e
    /\ entry_teacher e = 7
    /\ entry_start e = 1000%Z.
Proof.
  destruct (schedule_then_save (always true) (always true) (fun t => t =? 4) 0%Z
              7 1000%Z true false sample_world
              (snd (schedule (always true) (always true) (fun t => t =? 4) 0%Z
                             7 1000%Z true false sample_world)) eq_refl)
    as [w2 [row [e [Hrun [Hkeys [_ [Hget [_ [Hteacher [_ [_ [Hstart _]]]]]]]]]]]].
  exists w2, e. split; [exact Hrun|]. split; [exact Hkeys|]. split; [exact Hget|].
  split; [exact Hteacher | exact Hstart].
Defined.

Example bought_lesson_types_sample :
  bought_lesson_types sample_sort_order [3; 4; 5; 6]
    [ (1, sample_row);
      (2, mkClassRow 5 (usd 9900) 1 true 1 6 11 (Some 1) (Some 1));
      (3, mkClassRow 5 (usd 9900) 1 false 1 4 21 None (Some 1));
      (4, mkClassRow 5 (usd 9900) 1 false 1 5 31 None None);
      (5, mkClassRow 5 (usd 9900) 1 false 1 3 12 None None) ]
  = [4; 3].
Proof. reflexivity. Qed.

Lemma bought_lesson_types_complete_witness :
  In 4 (bought_lesson_types sample_sort_order [3; 4; 5] (classes stored_store)).
Proof.
  destruct (bought_lesson_types_complete sample_sort_order [3; 4; 5]
              (classes stored_store) 4 1%Z) as [_ Hunique].
  - cbn. lia.
  - exists (3, mkClassRow 5 (usd 9900) 1 false 1 4 21 None (Some 1)).
    cbn. split; [right; right; left; reflexivity | split; reflexivity].
  - reflexivity.
  - discriminate.
  - apply Hunique. intros t' [<- | [<- | [<- | []]]]; cbn; congruence.
Defined.

End MoreExamples.
